(** * zipline/data/adjustments.py: SQLite adjustment writer and reader

    A shallow embedding of [SQLiteAdjustmentWriter] and
    [SQLiteAdjustmentReader].

    - numpy arrays are lists tagged with their dtype; int64, uint32 and
      datetime64 values are [Z] (casts write the wrap-around out), float64
      values are IEEE binary64 numbers ([spec_float] at precision 53);
    - a pandas DataFrame is an association list from column names to
      arrays; the frame's index carries no adjustment data and is left out;
    - the sqlite connection is a finite map from table names to tables;
    - a method that may raise is a function from a state to a result and
      the state at the point of return or raise. *)

From Stdlib Require Import ZArith Floats.SpecFloat.
From stdpp Require Import gmap strings list fin_maps.

Open Scope Z_scope.

(** ** numpy scalars and dtypes *)

Module np.

(** float64: binary64, round to nearest even. *)
Definition float64 : Type := spec_float.

Definition prec : Z := 53.
Definition emax : Z := 1024.

Definition sub (x y : float64) : float64 := SFsub prec emax x y.
Definition div (x y : float64) : float64 := SFdiv prec emax x y.

Definition nan : float64 := S754_nan.
Definition zero : float64 := S754_zero false.
(** The literal [1.0]. *)
Definition one : float64 := S754_finite false 4503599627370496 (-52).

(** [isnull] (bound to [np.isnull] in [calc_dividend_ratios]): the
    missing-value test on a scalar price, true of NaN. *)
Definition isnull (x : float64) : bool :=
  match x with S754_nan => true | _ => false end.

(** Integer-backed dtypes. A datetime64[ns] value is its count of
    nanoseconds since the epoch. *)
Inductive int_kind : Type := int64 | uint32 | datetime64_ns.

Inductive dtype : Type :=
| Integer (k : int_kind)
| Float64.

#[global] Instance int_kind_eq_dec : EqDecision int_kind.
Proof. solve_decision. Defined.
#[global] Instance dtype_eq_dec : EqDecision dtype.
Proof. solve_decision. Defined.

(** [np.issubdtype] on two concrete scalar types holds when they are
    the same type. *)
Definition issubdtype (actual expected : dtype) : bool :=
  bool_decide (actual = expected).

Inductive ndarray : Type :=
| IntArray (k : int_kind) (xs : list Z)
| FloatArray (xs : list float64).

Definition dtype_of (a : ndarray) : dtype :=
  match a with
  | IntArray k _ => Integer k
  | FloatArray _ => Float64
  end.

Definition len (a : ndarray) : nat :=
  match a with
  | IntArray _ xs => length xs
  | FloatArray xs => length xs
  end.

(** [np.array([], dtype=dt)] *)
Definition empty_array (dt : dtype) : ndarray :=
  match dt with
  | Integer k => IntArray k []
  | Float64 => FloatArray []
  end.

Definition NaT : Z := - 2 ^ 63.

(** A float64 cast to a 64-bit integer: truncation toward zero, NaT for
    what is not a number or does not fit. *)
Definition float_to_int64 (x : float64) : Z :=
  match x with
  | S754_zero _ => 0
  | S754_finite s m e =>
      let mag := if (0 <=? e) then Z.pos m * 2 ^ e
                 else Z.pos m / 2 ^ (- e) in
      let v := if s then - mag else mag in
      if (- 2 ^ 63 <=? v) && (v <? 2 ^ 63) then v else NaT
  | _ => NaT
  end.

(** A value of an integer-backed dtype read as a datetime64[s]: a
    datetime64[ns] is floored to whole seconds; an integer already
    counts seconds. *)
Definition to_seconds (k : int_kind) (x : Z) : Z :=
  match k with
  | datetime64_ns => x `div` 1000000000
  | _ => x
  end.

(** [a.astype('datetime64[s]').astype('int64')] *)
Definition astype_datetime64_s_int64 (a : ndarray) : ndarray :=
  match a with
  | IntArray k xs => IntArray int64 (map (to_seconds k) xs)
  | FloatArray xs => IntArray int64 (map float_to_int64 xs)
  end.

(** [a.astype(uint32)] on 64-bit integers keeps the low 32 bits. *)
Definition astype_uint32 (x : Z) : Z := x `mod` 2 ^ 32.

End np.

Import np.

(** ** Python control flow: exceptions and state *)

Inductive exn : Type :=
| ValueError_table (tablename : string)
| ValueError_columns (expected received : list string)
| TypeError_dtype (colname : string) (expected actual : dtype)
| KeyError (key : string)
| AttributeError (name : string)
| IndexError
| OperationalError (what : string)
| ProgrammingError
| OutOfBoundsDatetime
| NoDataOnDate
| CollaboratorError (code : nat).

#[global] Instance exn_eq_dec : EqDecision exn.
Proof. solve_decision. Defined.

Inductive result (A : Type) : Type :=
| Ok (a : A)
| Raise (e : exn).
Arguments Ok {A} a.
Arguments Raise {A} e.

(** A call runs from a state and ends in a state, with a value or with
    an exception; what was done before a raise stays done. *)
Definition M (S A : Type) : Type := S → result A * S.

Definition ret {S A} (a : A) : M S A := λ s, (Ok a, s).
Definition raise {S A} (e : exn) : M S A := λ s, (Raise e, s).
Definition bind {S A B} (m : M S A) (k : A → M S B) : M S B :=
  λ s, match m s with
       | (Ok a, s') => k a s'
       | (Raise e, s') => (Raise e, s')
       end.
Definition lift {S A} (r : result A) : M S A := λ s, (r, s).
Definition gets {S A} (f : S → A) : M S A := λ s, (Ok (f s), s).
Definition modify {S} (f : S → S) : M S unit := λ s, (Ok tt, f s).

(** [try: body except E: handler]; [catches e] tells whether [e] is an
    instance of [E]. What the body did before it raised stays done. *)
Definition try_except {S A} (body : M S A) (catches : exn → bool)
    (handler : M S A) : M S A :=
  λ s, match body s with
       | (Raise e, s') => if catches e then handler s' else (Raise e, s')
       | done => done
       end.

Notation "'let*' x := m 'in' k" := (bind m (λ x, k))
  (at level 10, x pattern, m at level 100, k at level 200,
   format "'[v' 'let*'  x  :=  m  'in' '/' k ']'").
Notation "m ;;; k" := (bind m (λ _, k))
  (at level 100, k at level 200, right associativity).

(** [for i, x in enumerate(xs)] with the loop variables kept in [acc]. *)
Fixpoint for_enumerate {S A B} (body : B → nat → A → M S B)
    (i : nat) (xs : list A) (acc : B) : M S B :=
  match xs with
  | [] => ret acc
  | x :: rest =>
      let* acc' := body acc i x in
      for_enumerate body (Datatypes.S i) rest acc'
  end.

(** [for x in xs] *)
Fixpoint for_each {S A B} (body : B → A → M S B)
    (xs : list A) (acc : B) : M S B :=
  match xs with
  | [] => ret acc
  | x :: rest =>
      let* acc' := body acc x in
      for_each body rest acc'
  end.

(** [xs[i]] for a non-negative position. *)
Definition getitem {A} (xs : list A) (i : nat) : result A :=
  match xs !! i with
  | Some x => Ok x
  | None => Raise IndexError
  end.

(** [xs[i]] for a Python integer: a negative position counts from the
    end. *)
Definition getitem_int {A} (xs : list A) (i : Z) : result A :=
  let n := Z.of_nat (length xs) in
  if (0 <=? i) && (i <? n) then getitem xs (Z.to_nat i)
  else if (- n <=? i) && (i <? 0) then getitem xs (Z.to_nat (n + i))
  else Raise IndexError.

(** [xs[mask]] for a boolean array: the shapes must agree. *)
Fixpoint compress {A} (mask : list bool) (xs : list A) : list A :=
  match mask, xs with
  | b :: mask', x :: xs' =>
      if b then x :: compress mask' xs' else compress mask' xs'
  | _, _ => []
  end.

Definition getitem_mask {A} (xs : list A) (mask : list bool)
    : result (list A) :=
  if bool_decide (length mask = length xs) then Ok (compress mask xs)
  else Raise IndexError.

(** ** pandas frames *)

Definition DataFrame : Type := list (string * ndarray).

Module pd.

Definition columns (frame : DataFrame) : list string := frame.*1.

Definition dtypes (frame : DataFrame) : list (string * dtype) :=
  map (λ c, (c.1, dtype_of c.2)) frame.

(** [len(frame.index)] *)
Definition len_index (frame : DataFrame) : nat :=
  match frame with
  | [] => 0%nat
  | (_, a) :: _ => len a
  end.

(** [frame.empty]: some axis has length zero. *)
Definition empty (frame : DataFrame) : bool :=
  match frame with
  | [] => true
  | _ => bool_decide (len_index frame = 0%nat)
  end.

(** [frame[name]], as an option. *)
Fixpoint get (name : string) (frame : DataFrame) : option ndarray :=
  match frame with
  | [] => None
  | (n, a) :: rest => if bool_decide (n = name) then Some a
                      else get name rest
  end.

(** [frame[name] = a]: replaces the column or adds it last. *)
Fixpoint set (name : string) (a : ndarray) (frame : DataFrame)
    : DataFrame :=
  match frame with
  | [] => [(name, a)]
  | (n, b) :: rest => if bool_decide (n = name) then (n, a) :: rest
                      else (n, b) :: set name a rest
  end.

(** [pd.DataFrame(np.array([], dtype=list(dtypes.items())))] *)
Definition empty_frame (dts : list (string * dtype)) : DataFrame :=
  map (λ c, (c.1, empty_array c.2)) dts.

(** Every column has as many values as the index. *)
Definition well_formed (frame : DataFrame) : Prop :=
  Forall (λ c, len c.2 = len_index frame) frame.

End pd.

(** ** The sqlite connection *)

(** A table keeps the columns and dtypes of the frame that created it
    (sqlite stores the integer dtypes as INTEGER and float64 as REAL). *)
Abbreviation Connection := (gmap string DataFrame).

Module sql.

Definition concat_values (stored new : ndarray) : option ndarray :=
  match stored, new with
  | IntArray k xs, IntArray _ ys => Some (IntArray k (xs ++ ys))
  | FloatArray xs, FloatArray ys => Some (FloatArray (xs ++ ys))
  | _, _ => None
  end.

(** INSERT of the frame's rows after the table's: each table column
    takes the frame column of its name. *)
Fixpoint insert_rows (table frame : DataFrame) : option DataFrame :=
  match table with
  | [] => Some []
  | (n, stored) :: rest =>
      new ← pd.get n frame;
      col ← concat_values stored new;
      rest' ← insert_rows rest frame;
      Some ((n, col) :: rest')
  end.

(** [frame.to_sql(tablename, conn, if_exists='append')]: the table is
    created from the frame when it does not exist. sqlite refuses a
    column the table does not have; a row without one of the table's
    columns, or with a value of the other storage class, would need a
    NULL or a mixed column, which the typed arrays do not hold, and is
    refused here as well. *)
Definition to_sql (tablename : string) (frame : DataFrame)
    (conn : Connection) : result Connection :=
  match conn !! tablename with
  | None => Ok (<[tablename := frame]> conn)
  | Some table =>
      if forallb (λ n, bool_decide (n ∈ pd.columns table))
           (pd.columns frame)
      then match insert_rows table frame with
           | Some table' => Ok (<[tablename := table']> conn)
           | None => Raise (OperationalError tablename)
           end
      else Raise (OperationalError tablename)
  end.

(** [SELECT count( * ) FROM tablename] *)
Definition row_count (tablename : string) (conn : Connection) : nat :=
  match conn !! tablename with
  | None => 0%nat
  | Some table => pd.len_index table
  end.

End sql.

(** ** Module constants *)

Definition int64_dtype : dtype := Integer int64.
Definition uint32_dtype : dtype := Integer uint32.
Definition float64_dtype : dtype := Float64.

Definition SQLITE_ADJUSTMENT_TABLENAMES : list string :=
  ["splits"; "dividends"; "mergers"]%string.

Definition SQLITE_ADJUSTMENT_COLUMN_DTYPES : list (string * dtype) :=
  [ ("effective_date", int64_dtype);
    ("ratio", float64_dtype);
    ("sid", int64_dtype) ]%string.

Definition SQLITE_DIVIDEND_PAYOUT_COLUMN_DTYPES : list (string * dtype) :=
  [ ("sid", int64_dtype);
    ("ex_date", int64_dtype);
    ("declared_date", int64_dtype);
    ("record_date", int64_dtype);
    ("pay_date", int64_dtype);
    ("amount", float64_dtype) ]%string.

Definition SQLITE_STOCK_DIVIDEND_PAYOUT_COLUMN_DTYPES
    : list (string * dtype) :=
  [ ("sid", int64_dtype);
    ("ex_date", int64_dtype);
    ("declared_date", int64_dtype);
    ("record_date", int64_dtype);
    ("pay_date", int64_dtype);
    ("payment_sid", int64_dtype);
    ("ratio", float64_dtype) ]%string.

(** ** Collaborators of the writer *)

(** The trading calendar: a DatetimeIndex of sessions, each the count
    of nanoseconds since the epoch of its instant, in a timezone with a
    fixed offset to UTC. *)
Record DatetimeIndex : Type := {
  utcoffset : Z;
  sessions : list Z
}.

(** [calendar.tz_localize(None)]: the wall-clock readings. *)
Definition tz_localize_None (calendar : DatetimeIndex) : list Z :=
  map (λ t, t + utcoffset calendar) (sessions calendar).

(** [index.get_indexer(targets, method='bfill')] on an increasing index:
    for each target the position of the first entry at or after it, -1
    when there is none. *)
Fixpoint bfill (index : list Z) (i : Z) (target : Z) : Z :=
  match index with
  | [] => -1
  | x :: rest => if target <=? x then i else bfill rest (i + 1) target
  end.

Definition get_indexer_bfill (index targets : list Z) : list Z :=
  map (bfill index 0) targets.

(** The writer's collaborators: the close of a sid on a session as the
    daily bar reader gives it (or the exception it raises, NoDataOnDate
    among them), and the trading calendar. *)
Record SQLiteAdjustmentWriter : Type := {
  _equity_daily_bar_reader : Z → Z → result float64;
  _calendar : DatetimeIndex
}.

(** What [log.warn] is given by [calc_dividend_ratios]. *)
Record Warning : Type := {
  warn_sid : Z;
  warn_ex_date : Z;
  warn_amount : float64
}.

(** The connection the writer owns, the module's logger, and the
    (sid, session) pairs the daily bar reader was asked for. *)
Record State : Type := {
  conn : Connection;
  log : list Warning;
  bar_reads : list (Z * Z)
}.

Definition to_sql (tablename : string) (frame : DataFrame)
    : M State unit :=
  λ s, match sql.to_sql tablename frame (conn s) with
       | Ok c => (Ok tt, {| conn := c; log := log s;
                            bar_reads := bar_reads s |})
       | Raise e => (Raise e, s)
       end.

Definition log_warn (w : Warning) : M State unit :=
  modify (λ s, {| conn := conn s; log := log s ++ [w];
                  bar_reads := bar_reads s |}).

(** [equity_daily_bar_reader.get_value(sid, day, 'close')] *)
Definition get_value (self : SQLiteAdjustmentWriter) (sid day : Z)
    : M State float64 :=
  λ s, (_equity_daily_bar_reader self sid day,
        {| conn := conn s; log := log s;
           bar_reads := bar_reads s ++ [(sid, day)] |}).

(** ** SQLiteAdjustmentWriter *)

Definition frozenset (names : list string) : gset string :=
  list_to_set names.

(** [frame is None or frame.empty] *)
Definition is_None_or_empty (frame : option DataFrame) : bool :=
  match frame with
  | None => true
  | Some f => pd.empty f
  end.

(** The dtype loop of [_write]. *)
Definition check_dtype (actual_dtypes : list (string * dtype))
    (_ : unit) (item : string * dtype) : M State unit :=
  let '(colname, expected) := item in
  match list_to_map (M := gmap string dtype) actual_dtypes !! colname with
  | None => raise (KeyError colname)
  | Some actual =>
      if negb (issubdtype actual expected)
      then raise (TypeError_dtype colname expected actual)
      else ret tt
  end.

Definition _write (tablename : string)
    (expected_dtypes : list (string * dtype))
    (frame : option DataFrame) : M State unit :=
  let* frame :=
    match frame with
    | Some f =>
        if pd.empty f then ret (pd.empty_frame expected_dtypes)
        else if bool_decide (frozenset (pd.columns f)
                             ≠ frozenset expected_dtypes.*1)
        then raise (ValueError_columns expected_dtypes.*1 (pd.columns f))
        else
          for_each (check_dtype (pd.dtypes f)) expected_dtypes tt;;;
          ret f
    | None => ret (pd.empty_frame expected_dtypes)
    end in
  to_sql tablename frame.

(** [frame[col] = frame[col].values.astype('datetime64[s]').astype('int64')] *)
Definition encode_date (col : string) (frame : DataFrame)
    : M State DataFrame :=
  match pd.get col frame with
  | Some a => ret (pd.set col (astype_datetime64_s_int64 a) frame)
  | None => raise (KeyError col)
  end.

Definition write_frame (tablename : string) (frame : option DataFrame)
    : M State unit :=
  if bool_decide (tablename ∉ SQLITE_ADJUSTMENT_TABLENAMES)
  then raise (ValueError_table tablename)
  else
    let* frame :=
      match frame with
      | Some f =>
          if pd.empty f then ret frame
          else let* f' := encode_date "effective_date" f in ret (Some f')
      | None => ret frame
      end in
    _write tablename SQLITE_ADJUSTMENT_COLUMN_DTYPES frame.

Definition write_dividend_payouts (frame : option DataFrame)
    : M State unit :=
  _write "dividend_payouts" SQLITE_DIVIDEND_PAYOUT_COLUMN_DTYPES frame.

Definition write_stock_dividend_payouts (frame : option DataFrame)
    : M State unit :=
  _write "stock_dividend_payouts"
    SQLITE_STOCK_DIVIDEND_PAYOUT_COLUMN_DTYPES frame.

(** [dividends.<name>.values] *)
Definition getattr_values (frame : DataFrame) (name : string)
    : result ndarray :=
  match pd.get name frame with
  | Some a => Ok a
  | None => Raise (AttributeError name)
  end.

(** The columns of a payout batch as [calc_dividend_ratios] reads them.
    The batch format documented by [write] has integer sids, datetime64
    ex-dates and float amounts; an int64 amount divides as its float64
    value; a float array where a sid or a date is read is a TypeError. *)
Definition as_integers (name : string) (a : ndarray)
    : result (int_kind * list Z) :=
  match a with
  | IntArray k xs => Ok (k, xs)
  | FloatArray _ => Raise (TypeError_dtype name int64_dtype Float64)
  end.

Definition as_floats (a : ndarray) : list float64 :=
  match a with
  | FloatArray xs => xs
  | IntArray _ xs => map (λ x, binary_normalize prec emax x 0 false) xs
  end.

(** The loop variables of [calc_dividend_ratios]. *)
Record Loop : Type := {
  ratios : list float64;
  effective_dates : list Z
}.

Definition calc_dividend_ratios_body (self : SQLiteAdjustmentWriter)
    (sids ex_dates day_locs : list Z)
    (vars : Loop) (i : nat) (amount : float64) : M State Loop :=
  let* sid := lift (getitem sids i) in
  let* ex_date := lift (getitem ex_dates i) in
  let* day_loc := lift (getitem day_locs i) in
  let* prev_close_date :=
    lift (getitem_int (sessions (_calendar self)) (day_loc - 1)) in
  try_except
    (let* prev_close := get_value self sid prev_close_date in
     if negb (isnull prev_close) then
       let ratio := sub one (div amount prev_close) in
       ret {| ratios := <[i := ratio]> (ratios vars);
              effective_dates := <[i := ex_date]> (effective_dates vars) |}
     else ret vars)
    (λ e, bool_decide (e = NoDataOnDate))
    (log_warn {| warn_sid := sid;
                 warn_ex_date := ex_date;
                 warn_amount := amount |};;;
     ret vars).

(** [effective_dates.astype('datetime64[ns]').astype('datetime64[s]')
    .astype(uint32_dtype)] *)
Definition encode_effective_date (ns : Z) : Z :=
  astype_uint32 (ns `div` 1000000000).

Definition calc_dividend_ratios (self : SQLiteAdjustmentWriter)
    (dividends : option DataFrame) : M State DataFrame :=
  match dividends with
  | Some frame =>
      if pd.empty frame then
        ret (pd.empty_frame [ ("sid", uint32_dtype);
                              ("effective_date", uint32_dtype);
                              ("ratio", float64_dtype) ]%string)
      else
        let* ex_date_values := lift (getattr_values frame "ex_date") in
        let* (_, ex_dates) := lift (as_integers "ex_date" ex_date_values) in
        let* sid_values := lift (getattr_values frame "sid") in
        let* (sid_kind, sids) := lift (as_integers "sid" sid_values) in
        let* amount_values := lift (getattr_values frame "amount") in
        let amounts := as_floats amount_values in
        let calendar := _calendar self in
        let tz_naive_calendar := tz_localize_None calendar in
        let day_locs := get_indexer_bfill tz_naive_calendar ex_dates in
        let* vars :=
          for_enumerate
            (calc_dividend_ratios_body self sids ex_dates day_locs)
            0 amounts
            {| ratios := replicate (length amounts) nan;
               effective_dates := replicate (length amounts) (-1) |} in
        let effective_mask :=
          map (λ d, bool_decide (d ≠ -1)) (effective_dates vars) in
        let* effective_dates :=
          lift (getitem_mask (effective_dates vars) effective_mask) in
        let effective_dates := map encode_effective_date effective_dates in
        let* sids := lift (getitem_mask sids effective_mask) in
        let* ratios := lift (getitem_mask (ratios vars) effective_mask) in
        ret [ ("sid", IntArray sid_kind sids);
              ("effective_date", IntArray uint32 effective_dates);
              ("ratio", FloatArray ratios) ]%string
  | None =>
      ret (pd.empty_frame [ ("sid", uint32_dtype);
                            ("effective_date", uint32_dtype);
                            ("ratio", float64_dtype) ]%string)
  end.

Definition _write_dividends (dividends : option DataFrame)
    : M State unit :=
  let* dividend_payouts :=
    match dividends with
    | None => ret None
    | Some dividends =>
        let* f := encode_date "ex_date" dividends in
        let* f := encode_date "record_date" f in
        let* f := encode_date "declared_date" f in
        let* f := encode_date "pay_date" f in
        ret (Some f)
    end in
  write_dividend_payouts dividend_payouts.

Definition _write_stock_dividends (stock_dividends : option DataFrame)
    : M State unit :=
  let* stock_dividend_payouts :=
    match stock_dividends with
    | None => ret None
    | Some stock_dividends =>
        let* f := encode_date "ex_date" stock_dividends in
        let* f := encode_date "record_date" f in
        let* f := encode_date "declared_date" f in
        let* f := encode_date "pay_date" f in
        ret (Some f)
    end in
  write_stock_dividend_payouts stock_dividend_payouts.

Definition write_dividend_data (self : SQLiteAdjustmentWriter)
    (dividends stock_dividends : option DataFrame) : M State unit :=
  _write_dividends dividends;;;
  _write_stock_dividends stock_dividends;;;
  let* dividend_ratios := calc_dividend_ratios self dividends in
  write_frame "dividends" (Some dividend_ratios).

(** ** SQLiteAdjustmentReader *)

(** The reader's connection: the tables, the cursors that are open, and
    how many cursors were handed out. *)
Record Session : Type := {
  db : Connection;
  cursors : gset nat;
  issued : nat
}.

(** [conn.cursor()] *)
Definition cursor : M Session nat :=
  λ s, (Ok (issued s),
        {| db := db s;
           cursors := {[issued s]} ∪ cursors s;
           issued := Datatypes.S (issued s) |}).

(** [c.close()] *)
Definition close (c : nat) : M Session unit :=
  modify (λ s, {| db := db s;
                  cursors := cursors s ∖ {[c]};
                  issued := issued s |}).

(** [c.execute(query, t).fetchall()]: sqlite refuses a cursor that was
    closed. *)
Definition execute_fetchall {A} (c : nat)
    (query : Connection → result A) : M Session A :=
  λ s, if bool_decide (c ∈ cursors s) then (query (db s), s)
       else (Raise ProgrammingError, s).

(** The reader "expects data written in the format output by
    SQLiteAdjustmentWriter": integer sids and dates, float ratios and
    amounts. sqlite raises an OperationalError for a table or a column
    that does not exist; a column of the other storage class is outside
    that format and is a TypeError here. *)
Module query.

Definition from (tablename : string) (conn : Connection)
    : result DataFrame :=
  match conn !! tablename with
  | Some table => Ok table
  | None => Raise (OperationalError tablename)
  end.

Definition integers (table : DataFrame) (name : string)
    : result (list Z) :=
  match pd.get name table with
  | Some (IntArray _ xs) => Ok xs
  | Some (FloatArray _) => Raise (TypeError_dtype name int64_dtype Float64)
  | None => Raise (OperationalError name)
  end.

Definition reals (table : DataFrame) (name : string)
    : result (list float64) :=
  match pd.get name table with
  | Some (FloatArray xs) => Ok xs
  | Some (IntArray k _) =>
      Raise (TypeError_dtype name float64_dtype (Integer k))
  | None => Raise (OperationalError name)
  end.

Definition and_then {A B} (r : result A) (k : A → result B) : result B :=
  match r with
  | Ok a => k a
  | Raise e => Raise e
  end.

(** "SELECT effective_date, ratio FROM %s WHERE sid = ?" *)
Definition adjustments_for_sid (table_name : string) (sid : Z)
    (conn : Connection) : result (list (Z * float64)) :=
  and_then (from table_name conn) (λ table,
  and_then (integers table "effective_date") (λ effective_date,
  and_then (reals table "ratio") (λ ratio,
  and_then (integers table "sid") (λ sids,
  Ok (map (λ row, (row.1.1, row.1.2))
        (filter (λ row, row.2 = sid)
           (zip (zip effective_date ratio) sids))))))).

(** UNPAID_QUERY_TEMPLATE:
    SELECT sid, amount, pay_date from dividend_payouts
    WHERE ex_date=? AND sid IN (...) *)
Definition UNPAID_QUERY (seconds : Z) (chunk : list Z)
    (conn : Connection) : result (list (Z * float64 * Z)) :=
  and_then (from "dividend_payouts" conn) (λ table,
  and_then (integers table "sid") (λ sid,
  and_then (reals table "amount") (λ amount,
  and_then (integers table "pay_date") (λ pay_date,
  and_then (integers table "ex_date") (λ ex_date,
  Ok (map (λ row, row.1)
        (filter (λ row, row.2 = seconds ∧ row.1.1.1 ∈ chunk)
           (zip (zip (zip sid amount) pay_date) ex_date)))))))).

(** UNPAID_STOCK_DIVIDEND_QUERY_TEMPLATE:
    SELECT sid, payment_sid, ratio, pay_date from stock_dividend_payouts
    WHERE ex_date=? AND sid IN (...) *)
Definition UNPAID_STOCK_DIVIDEND_QUERY (seconds : Z) (chunk : list Z)
    (conn : Connection) : result (list (Z * Z * float64 * Z)) :=
  and_then (from "stock_dividend_payouts" conn) (λ table,
  and_then (integers table "sid") (λ sid,
  and_then (integers table "payment_sid") (λ payment_sid,
  and_then (reals table "ratio") (λ ratio,
  and_then (integers table "pay_date") (λ pay_date,
  and_then (integers table "ex_date") (λ ex_date,
  Ok (map (λ row, row.1)
        (filter (λ row, row.2 = seconds ∧ row.1.1.1.1 ∈ chunk)
           (zip (zip (zip (zip sid payment_sid) ratio) pay_date)
              ex_date))))))))).

End query.

(** [Timestamp(seconds, unit='s', tz='UTC')]: the instant as a count of
    nanoseconds, which has to fit 64 bits. *)
Definition Timestamp (seconds : Z) : result Z :=
  let ns := seconds * 1000000000 in
  if (- 2 ^ 63 <? ns) && (ns <? 2 ^ 63) then Ok ns
  else Raise OutOfBoundsDatetime.

Record Dividend (Asset : Type) : Type := {
  asset : Asset;
  amount : float64;
  pay_date : Z
}.
Arguments asset {Asset} _.
Arguments amount {Asset} _.
Arguments pay_date {Asset} _.

Record StockDividend (Asset : Type) : Type := {
  sd_asset : Asset;
  sd_payment_asset : Asset;
  sd_ratio : float64;
  sd_pay_date : Z
}.

(** Modelled from the spec: [group_into_chunks] of
    zipline.utils.sqlite_utils is not among the sources. "The asset set
    is partitioned into fixed-size chunks and one query issued per
    chunk"; the size is the backend's bound on the parameters of one
    query and is left open here. *)
Definition group_into_chunks {A} (chunk_size : nat) (items : list A)
    : list (list A) :=
  map (λ k, take chunk_size (drop (k * chunk_size) items))
      (seq 0 ((length items + chunk_size - 1) `div` chunk_size)).

Section reader.

Context {Asset : Type}.
(** [asset_finder.retrieve_asset] *)
Variable retrieve_asset : Z → result Asset.
Variable chunk_size : nat.

Definition get_adjustments_for_sid (table_name : string) (sid : Z)
    : M Session (list (Z * float64)) :=
  let* c := cursor in
  let* adjustments_for_sid :=
    execute_fetchall c (query.adjustments_for_sid table_name sid) in
  close c;;;
  for_each
    (λ out adjustment,
       let* t := lift (Timestamp adjustment.1) in
       ret (out ++ [(t, adjustment.2)]))
    adjustments_for_sid [].

(** [date] is [date.value], in nanoseconds; [date.value / int(1e9)] is
    its whole seconds (as-of dates are midnights, where the integer and
    the true division agree). *)
Definition get_dividends_with_ex_date (assets : list Z) (date : Z)
    : M Session (list (Dividend Asset)) :=
  let seconds := date `div` 1000000000 in
  let* c := cursor in
  let* divs :=
    for_each
      (λ divs chunk,
         let* rows :=
           execute_fetchall c (query.UNPAID_QUERY seconds chunk) in
         for_each
           (λ divs row,
              let* a := lift (retrieve_asset row.1.1) in
              let* t := lift (Timestamp row.2) in
              let div := {| asset := a;
                            amount := row.1.2;
                            pay_date := t |} in
              ret (divs ++ [div]))
           rows divs)
      (group_into_chunks chunk_size assets) [] in
  close c;;;
  ret divs.

Definition get_stock_dividends_with_ex_date (assets : list Z) (date : Z)
    : M Session (list (StockDividend Asset)) :=
  let seconds := date `div` 1000000000 in
  let* c := cursor in
  let* stock_divs :=
    for_each
      (λ stock_divs chunk,
         let* rows :=
           execute_fetchall c
             (query.UNPAID_STOCK_DIVIDEND_QUERY seconds chunk) in
         for_each
           (λ stock_divs row,
              let* a := lift (retrieve_asset row.1.1.1) in
              let* p := lift (retrieve_asset row.1.1.2) in
              let* t := lift (Timestamp row.2) in
              let stock_div := {| sd_asset := a;
                                  sd_payment_asset := p;
                                  sd_ratio := row.1.2;
                                  sd_pay_date := t |} in
              ret (stock_divs ++ [stock_div]))
           rows stock_divs)
      (group_into_chunks chunk_size assets) [] in
  close c;;;
  ret stock_divs.

End reader.

(** [self._datetime_int_cols] *)
Definition _datetime_int_cols : list (string * list string) :=
  [ ("dividend_payouts",
     ["declared_date"; "ex_date"; "pay_date"; "record_date"]);
    ("dividends", ["effective_date"]);
    ("mergers", ["effective_date"]);
    ("splits", ["effective_date"]);
    ("stock_dividend_payouts",
     ["declared_date"; "ex_date"; "pay_date"; "record_date"]) ]%string.







(** ** The ratio derivation, row by row

    What [calc_dividend_ratios] does to one payout row (sid, ex_date,
    amount), stated without the arrays and the loop; the equivalence is
    proved below. *)

Abbreviation PayoutRow := (Z * Z * float64)%type.

Section derivation.

Variable self : SQLiteAdjustmentWriter.

(** The session before the first session at or after the ex-date. *)
Definition pricing_reference_day (ex_date : Z) : result Z :=
  let day_loc := bfill (tz_localize_None (_calendar self)) 0 ex_date in
  getitem_int (sessions (_calendar self)) (day_loc - 1).

(** The close on the pricing reference day. *)
Definition prev_close (row : PayoutRow) : result float64 :=
  query.and_then (pricing_reference_day row.1.2)
    (_equity_daily_bar_reader self row.1.1).











End derivation.

(** The rows of a frame in the format of splits, mergers and dividends. *)
Definition adjustment_rows (frame : DataFrame) : list (Z * Z * float64) :=
  match pd.get "sid" frame, pd.get "effective_date" frame,
        pd.get "ratio" frame with
  | Some (IntArray _ sids), Some (IntArray _ dates), Some (FloatArray rs) =>
      zip (zip sids dates) rs
  | _, _, _ => []
  end.




(** ** The example of the documentation

    sid 42, ex-date 2020-03-01, amount 0.50, prior close 50.0; a second
    sid without prices. The sessions are 2020-02-27, 2020-02-28 and
    2020-03-02. *)
Module example.

Definition half : float64 := S754_finite false 4503599627370496 (-53).
Definition fifty : float64 := S754_finite false 7036874417766400 (-47).

Definition calendar : DatetimeIndex :=
  {| utcoffset := 0;
     sessions := [ 1582761600000000000;
                   1582848000000000000;
                   1583107200000000000 ] |}.

Definition bar_reader (sid day : Z) : result float64 :=
  if bool_decide (sid = 42 ∧ day = 1582848000000000000) then Ok fifty
  else if bool_decide (sid = 42 ∧ day = 1583107200000000000) then Ok zero
  else Raise NoDataOnDate.

Definition writer : SQLiteAdjustmentWriter :=
  {| _equity_daily_bar_reader := bar_reader; _calendar := calendar |}.

Definition ex_date : Z := 1583020800000000000.

Definition dividends : DataFrame :=
  [ ("sid", IntArray int64 [42; 7]);
    ("ex_date", IntArray datetime64_ns [ex_date; ex_date]);
    ("declared_date", IntArray datetime64_ns [0; 0]);
    ("record_date", IntArray datetime64_ns [0; 0]);
    ("pay_date", IntArray datetime64_ns [1584000000500000000; 0]);
    ("amount", FloatArray [half; half]) ]%string.

Definition fresh : State := {| conn := ∅; log := []; bar_reads := [] |}.

(** A split dated half a second after midnight. *)
Definition splits : DataFrame :=
  [ ("sid", IntArray int64 [42]);
    ("effective_date", IntArray datetime64_ns [1583020800500000000]);
    ("ratio", FloatArray [half]) ]%string.

(** A store with three payouts, and a reader's connection to it. *)
Definition store : Connection :=
  {[ "dividend_payouts"%string :=
       [ ("sid", IntArray int64 [42; 7; 42]);
         ("ex_date", IntArray int64 [1583020800; 1583020800; 1590000000]);
         ("declared_date", IntArray int64 [0; 0; 0]);
         ("record_date", IntArray int64 [0; 0; 0]);
         ("pay_date", IntArray int64 [1584000000; 1584000000; 0]);
         ("amount", FloatArray [half; half; half]) ]%string ]}.




End example.


(** ** Conformance of a batch to a table's declaration *)

(** The dtype of a column of a frame. *)
Definition column_dtype (frame : DataFrame) (colname : string)
    : option dtype :=
  dtype_of <$> pd.get colname frame.

(** The batch has exactly the declared columns, each of the declared
    dtype. *)
Definition conforms (expected_dtypes : list (string * dtype))
    (frame : DataFrame) : Prop :=
  frozenset (pd.columns frame) = frozenset expected_dtypes.*1
  ∧ Forall (λ item, column_dtype frame item.1 = Some item.2)
      expected_dtypes.

(** The state with another connection. *)
Definition with_conn (c : Connection) (s : State) : State :=
  {| conn := c; log := log s; bar_reads := bar_reads s |}.

(** ** The tables of the store *)

(** The dtypes a table is declared with: the dictionary its writing
    method hands to [_write]. *)
Definition declared_dtypes (tablename : string) : list (string * dtype) :=
  if bool_decide (tablename ∈ SQLITE_ADJUSTMENT_TABLENAMES)
  then SQLITE_ADJUSTMENT_COLUMN_DTYPES
  else if bool_decide (tablename = "dividend_payouts"%string)
  then SQLITE_DIVIDEND_PAYOUT_COLUMN_DTYPES
  else if bool_decide (tablename = "stock_dividend_payouts"%string)
  then SQLITE_STOCK_DIVIDEND_PAYOUT_COLUMN_DTYPES
  else [].



(** ** Dates on the way in and on the way out *)

(** A column the frame has is replaced by its image under [g]. *)
Definition update (g : ndarray → ndarray) (col : string)
    (frame : DataFrame) : DataFrame :=
  match pd.get col frame with
  | Some a => pd.set col (g a) frame
  | None => frame
  end.

Definition update_all (g : ndarray → ndarray) (cols : list string)
    (frame : DataFrame) : DataFrame :=
  foldl (λ f col, update g col f) frame cols.

(** [frame[col] = frame[col].values.astype('datetime64[s]').astype(int64)]
    for a column the frame has. *)
Definition reencode : string → DataFrame → DataFrame :=
  update astype_datetime64_s_int64.

Definition encoded : list string → DataFrame → DataFrame :=
  update_all astype_datetime64_s_int64.

(** The date columns of a payout batch, in the order in which
    [_write_dividends] and [_write_stock_dividends] encode them. *)
Definition PAYOUT_DATES : list string :=
  ["ex_date"; "record_date"; "declared_date"; "pay_date"]%string.

(** The seconds of a date column as instants, when they fit. *)
Definition in_bounds (seconds : Z) : Prop :=
  - 2 ^ 63 < seconds * 1000000000 < 2 ^ 63.


Definition to_datetime (a : ndarray) : ndarray :=
  match a with
  | IntArray _ xs => IntArray datetime64_ns (map (λ x, x * 1000000000) xs)
  | FloatArray _ => a
  end.




(** The writer's method for a batch whose dates are still datetimes:
    [write_frame] for splits, mergers and dividends, [_write_dividends]
    and [_write_stock_dividends] for the payouts. *)
Definition write_batch (tablename : string) (frame : option DataFrame)
    : M State unit :=
  if bool_decide (tablename = "dividend_payouts"%string)
  then _write_dividends frame
  else if bool_decide (tablename = "stock_dividend_payouts"%string)
  then _write_stock_dividends frame
  else write_frame tablename frame.

(** A valid batch for a table: not empty, with exactly the declared
    columns, the date columns as datetimes or integer seconds, the
    other columns of the declared dtype. *)
Definition valid_batch (tablename : string) (date_cols : list string)
    (frame : DataFrame) : Prop :=
  pd.empty frame = false
  ∧ frozenset (pd.columns frame)
    = frozenset (declared_dtypes tablename).*1
  ∧ Forall (λ item, item.1 ∈ date_cols
                    ∨ column_dtype frame item.1 = Some item.2)
      (declared_dtypes tablename)
  ∧ Forall (λ col, ∃ k xs, pd.get col frame = Some (IntArray k xs))
      date_cols.

(** [table] has the columns of [frame]; a date column holds, as dtype
    [out], the values of the frame's column under [conv] (which is told
    the dtype they had in the frame); the other columns are the
    frame's. *)
Definition dates_as (date_cols : list string) (out : int_kind)
    (conv : int_kind → Z → Z) (frame table : DataFrame) : Prop :=
  pd.columns table = pd.columns frame
  ∧ (∀ col, col ∉ date_cols → pd.get col table = pd.get col frame)
  ∧ (∀ col k xs,
       col ∈ date_cols →
       pd.get col frame = Some (IntArray k xs) →
       pd.get col table = Some (IntArray out (map (conv k) xs))).

(** ** The ex-date queries, row by row *)

(** The results of [f] on the elements, or the first exception. *)
Fixpoint collect {A B} (f : A → result B) (xs : list A) : result (list B) :=
  match xs with
  | [] => Ok []
  | x :: rest =>
      query.and_then (f x) (λ y,
      query.and_then (collect f rest) (λ ys, Ok (y :: ys)))
  end.

(** The rows (sid, amount, pay_date, ex_date) of dividend_payouts. *)
Definition dividend_payouts (conn : Connection)
    : result (list (Z * float64 * Z * Z)) :=
  query.and_then (query.from "dividend_payouts" conn) (λ table,
  query.and_then (query.integers table "sid") (λ sid,
  query.and_then (query.reals table "amount") (λ amount,
  query.and_then (query.integers table "pay_date") (λ pay_date,
  query.and_then (query.integers table "ex_date") (λ ex_date,
  Ok (zip (zip (zip sid amount) pay_date) ex_date)))))).

(** The rows a query for [sids] on [seconds] selects. *)
Definition unpaid (seconds : Z) (sids : list Z)
    (rows : list (Z * float64 * Z * Z)) : list (Z * float64 * Z) :=
  map (λ row, row.1) (filter (λ row, row.2 = seconds ∧ row.1.1.1 ∈ sids) rows).

Section dividends.

Context {Asset : Type}.
Variable retrieve_asset : Z → result Asset.

(** The Dividend made of a row. *)
Definition to_dividend (row : Z * float64 * Z) : result (Dividend Asset) :=
  query.and_then (retrieve_asset row.1.1) (λ a,
  query.and_then (Timestamp row.2) (λ t,
  Ok {| asset := a; amount := row.1.2; pay_date := t |})).

End dividends.

(** The connection after [conn.cursor()], and after the cursor was
    closed. *)
Definition opened (s : Session) : Session :=
  {| db := db s;
     cursors := {[issued s]} ∪ cursors s;
     issued := Datatypes.S (issued s) |}.

Definition closed (s : Session) : Session :=
  {| db := db s;
     cursors := ({[issued s]} ∪ cursors s) ∖ {[issued s]};
     issued := Datatypes.S (issued s) |}.

(** A computation that leaves the reader's connection as it is. *)
Definition preserves {A} (m : M Session A) : Prop := ∀ s, (m s).2 = s.


(** ** A bar reader that fails

    The reader of the example, out of service for sid 7. *)
Module outage.

Definition bar_reader (sid day : Z) : result float64 :=
  if bool_decide (sid = 7) then Raise (CollaboratorError 1)
  else example.bar_reader sid day.

Definition writer : SQLiteAdjustmentWriter :=
  {| _equity_daily_bar_reader := bar_reader;
     _calendar := example.calendar |}.



End outage.

(** ** The adjustments of a sid, row by row *)

(** The (effective_date, ratio) pairs of the rows of [sid]. *)
Definition adjustments_of (sid : Z) (rows : list (Z * Z * float64))
    : list (Z * float64) :=
  map (λ r, (r.1.2, r.2)) (filter (λ r, r.1.1 = sid) rows).

(** The pair [get_adjustments_for_sid] makes of a row. *)
Definition to_adjustment (adjustment : Z * float64)
    : result (Z * float64) :=
  query.and_then (Timestamp adjustment.1) (λ t, Ok (t, adjustment.2)).

(** ** The stock dividend query, row by row *)

(** The rows (sid, payment_sid, ratio, pay_date, ex_date) of
    stock_dividend_payouts. *)
Definition stock_dividend_payouts (conn : Connection)
    : result (list (Z * Z * float64 * Z * Z)) :=
  query.and_then (query.from "stock_dividend_payouts" conn) (λ table,
  query.and_then (query.integers table "sid") (λ sid,
  query.and_then (query.integers table "payment_sid") (λ payment_sid,
  query.and_then (query.reals table "ratio") (λ ratio,
  query.and_then (query.integers table "pay_date") (λ pay_date,
  query.and_then (query.integers table "ex_date") (λ ex_date,
  Ok (zip (zip (zip (zip sid payment_sid) ratio) pay_date) ex_date))))))).

(** The rows a stock dividend query for [sids] on [seconds] selects. *)
Definition unpaid_stock (seconds : Z) (sids : list Z)
    (rows : list (Z * Z * float64 * Z * Z)) : list (Z * Z * float64 * Z) :=
  map (λ row, row.1)
    (filter (λ row, row.2 = seconds ∧ row.1.1.1.1 ∈ sids) rows).

Section stock_dividends.

Context {Asset : Type}.
Variable retrieve_asset : Z → result Asset.

(** The StockDividend made of a row. *)
Definition to_stock_dividend (row : Z * Z * float64 * Z)
    : result (StockDividend Asset) :=
  query.and_then (retrieve_asset row.1.1.1) (λ a,
  query.and_then (retrieve_asset row.1.1.2) (λ p,
  query.and_then (Timestamp row.2) (λ t,
  Ok {| sd_asset := a; sd_payment_asset := p;
        sd_ratio := row.1.2; sd_pay_date := t |}))).

End stock_dividends.


(** ** The whole write

    [write] writes the five tables and then builds ten indexes with
    [self.conn.execute("CREATE INDEX ...")]. The indexes of the
    connection are kept beside its tables: the name of an index, its
    table and its column. *)
Record Database : Type := {
  store : State;
  indexes : gmap string (string * string)
}.

(** A call of the writer that works on the tables. *)
Definition on_store {A} (m : M State A) : M Database A :=
  λ d, ((m (store d)).1,
        {| store := (m (store d)).2; indexes := indexes d |}).

(** [conn.execute("CREATE INDEX name ON table(column)")]: sqlite looks
    for the table, refuses a name that an index or a table has, and
    refuses a column the table does not have. *)
Definition CREATE_INDEX (name table column : string) : M Database unit :=
  λ d, match conn (store d) !! table with
       | None => (Raise (OperationalError table), d)
       | Some t =>
           if bool_decide (is_Some (indexes d !! name)
                           ∨ is_Some (conn (store d) !! name))
           then (Raise (OperationalError name), d)
           else if bool_decide (column ∈ pd.columns t)
           then (Ok tt, {| store := store d;
                           indexes := <[name := (table, column)]>
                                        (indexes d) |})
           else (Raise (OperationalError column), d)
       end.

Definition write (self : SQLiteAdjustmentWriter)
    (splits mergers dividends stock_dividends : option DataFrame)
    : M Database unit :=
  on_store (write_frame "splits" splits);;;
  on_store (write_frame "mergers" mergers);;;
  on_store (write_dividend_data self dividends stock_dividends);;;
  CREATE_INDEX "splits_sids" "splits" "sid";;;
  CREATE_INDEX "splits_effective_date" "splits" "effective_date";;;
  CREATE_INDEX "mergers_sids" "mergers" "sid";;;
  CREATE_INDEX "mergers_effective_date" "mergers" "effective_date";;;
  CREATE_INDEX "dividends_sid" "dividends" "sid";;;
  CREATE_INDEX "dividends_effective_date" "dividends" "effective_date";;;
  CREATE_INDEX "dividend_payouts_sid" "dividend_payouts" "sid";;;
  CREATE_INDEX "dividends_payouts_ex_date" "dividend_payouts" "ex_date";;;
  CREATE_INDEX "stock_dividend_payouts_sid" "stock_dividend_payouts" "sid";;;
  CREATE_INDEX "stock_dividends_payouts_ex_date" "stock_dividend_payouts"
    "ex_date".

(** The indexes [write] builds, in its order. *)
Definition INDEXES : list (string * (string * string)) :=
  [ ("splits_sids", ("splits", "sid"));
    ("splits_effective_date", ("splits", "effective_date"));
    ("mergers_sids", ("mergers", "sid"));
    ("mergers_effective_date", ("mergers", "effective_date"));
    ("dividends_sid", ("dividends", "sid"));
    ("dividends_effective_date", ("dividends", "effective_date"));
    ("dividend_payouts_sid", ("dividend_payouts", "sid"));
    ("dividends_payouts_ex_date", ("dividend_payouts", "ex_date"));
    ("stock_dividend_payouts_sid", ("stock_dividend_payouts", "sid"));
    ("stock_dividends_payouts_ex_date",
     ("stock_dividend_payouts", "ex_date")) ]%string.

(** The table writes of [write]. *)
Definition write_tables (self : SQLiteAdjustmentWriter)
    (splits mergers dividends stock_dividends : option DataFrame)
    : M State unit :=
  write_frame "splits" splits;;;
  write_frame "mergers" mergers;;;
  write_dividend_data self dividends stock_dividends.

(** A computation of the writer that leaves the connection alone. *)
Definition keeps_conn {A} (m : M State A) : Prop :=
  ∀ s, conn (m s).2 = conn s.

(** A new connection, without tables and without indexes. *)
Definition new_database : Database :=
  {| store := {| conn := ∅; log := []; bar_reads := [] |};
     indexes := ∅ |}.

(** The connection has the table, with these columns among its own. *)
Definition has_columns (c : Connection) (tablename : string)
    (cols : list string) : Prop :=
  ∃ table, c !! tablename = Some table
           ∧ ∀ col, col ∈ cols → col ∈ pd.columns table.

(** * Proofs *)

#[global] Arguments np.sub : simpl never.
#[global] Arguments np.div : simpl never.

(** ** Running a computation *)




Lemma bind_lift_Raise {S A B} e (k : A → M S B) s :
  bind (lift (Raise e)) k s = (Raise e, s).
Proof. reflexivity. Qed.

(** ** Indexing *)



(** ** Boolean masks *)



(** ** The loop of [calc_dividend_ratios] *)

Section loop.

Variable self : SQLiteAdjustmentWriter.






End loop.

Section calc.

Variable self : SQLiteAdjustmentWriter.




End calc.

(** ** Claims on [calc_dividend_ratios] *)










(** ** The pricing reference day *)







(** ** An ex-date at or before the first session *)




(** ** [_write] *)

Lemma for_each_check_dtype actual_dtypes expected_dtypes s :
  (∀ item, item ∈ expected_dtypes →
     is_Some (list_to_map (M := gmap string dtype) actual_dtypes !! item.1)) →
  (Forall (λ item, list_to_map (M := gmap string dtype) actual_dtypes
                     !! item.1 = Some item.2) expected_dtypes
   ∧ for_each (check_dtype actual_dtypes) expected_dtypes tt s = (Ok tt, s))
  ∨ (∃ colname expected actual,
       (colname, expected) ∈ expected_dtypes
       ∧ list_to_map (M := gmap string dtype) actual_dtypes !! colname
         = Some actual
       ∧ actual ≠ expected
       ∧ for_each (check_dtype actual_dtypes) expected_dtypes tt s
         = (Raise (TypeError_dtype colname expected actual), s)).
Proof.
  induction expected_dtypes as [|[colname expected] rest IH]; intros Hin.
  - left. by split.
  - destruct (Hin (colname, expected)) as [actual Hactual]; [left|].
    cbn [fst] in Hactual.
    assert (Hstep :
      for_each (check_dtype actual_dtypes) ((colname, expected) :: rest) tt s
      = if decide (actual = expected)
        then for_each (check_dtype actual_dtypes) rest tt s
        else (Raise (TypeError_dtype colname expected actual), s)).
    { cbn [for_each]. unfold bind, check_dtype at 1.
      rewrite Hactual. unfold issubdtype.
      destruct (decide (actual = expected)) as [->|Hne].
      - by rewrite bool_decide_eq_true_2 by done.
      - by rewrite bool_decide_eq_false_2 by done. }
    rewrite Hstep. clear Hstep.
    destruct (decide (actual = expected)) as [->|Hne].
    + assert (Hrest : ∀ item, item ∈ rest →
                is_Some (list_to_map (M := gmap string dtype) actual_dtypes
                           !! item.1))
        by (intros item Hitem; apply Hin; by right).
      destruct (IH Hrest) as [[Hall Hrun]|(c & e & a & Hc & Ha & Hne & Hrun)].
      * left. split; [by apply Forall_cons|done].
      * right. exists c, e, a. repeat split; try done. by right.
    + right. exists colname, expected, actual. repeat split; try done. left.
Qed.

Lemma list_to_map_dtypes frame colname :
  list_to_map (M := gmap string dtype) (pd.dtypes frame) !! colname
  = dtype_of <$> pd.get colname frame.
Proof.
  induction frame as [|[n a] frame IH]; [done|].
  cbn [pd.dtypes map list_to_map foldr pd.get fst snd].
  destruct (decide (n = colname)) as [->|Hne].
  - rewrite bool_decide_eq_true_2 by done. apply lookup_insert_eq.
  - rewrite bool_decide_eq_false_2 by done.
    rewrite lookup_insert_ne by done. apply IH.
Qed.

Lemma get_is_Some frame colname :
  is_Some (pd.get colname frame) ↔ colname ∈ pd.columns frame.
Proof.
  induction frame as [|[n a] frame IH]; cbn [pd.get pd.columns fmap list_fmap fst].
  - split; [by intros [? ?]|by intros ?%elem_of_nil].
  - destruct (decide (n = colname)) as [->|Hne].
    + rewrite bool_decide_eq_true_2 by done. split; [left|eauto].
    + rewrite bool_decide_eq_false_2 by done. rewrite IH.
      split; [by right|]. intros [?|?]%elem_of_cons; [congruence|done].
Qed.

Lemma frozenset_elem names colname :
  colname ∈ frozenset names ↔ colname ∈ names.
Proof. unfold frozenset. apply elem_of_list_to_set. Qed.

Lemma expected_columns_present (expected_dtypes : list (string * dtype))
    frame :
  frozenset (pd.columns frame) = frozenset expected_dtypes.*1 →
  ∀ item, item ∈ expected_dtypes →
    is_Some (list_to_map (M := gmap string dtype) (pd.dtypes frame)
               !! item.1).
Proof.
  intros Hcols item Hitem. rewrite list_to_map_dtypes.
  apply fmap_is_Some, get_is_Some, frozenset_elem. rewrite Hcols.
  apply frozenset_elem. by apply (list_elem_of_fmap_2 fst _ item).
Qed.

Lemma to_sql_create tablename frame s :
  conn s !! tablename = None →
  to_sql tablename frame s
  = (Ok tt, with_conn (<[tablename := frame]> (conn s)) s).
Proof. intros Hnone. unfold to_sql, sql.to_sql. by rewrite Hnone. Qed.

(** A batch that conforms is appended as it is. *)
Lemma _write_conforming tablename expected_dtypes frame s :
  pd.empty frame = false →
  conforms expected_dtypes frame →
  _write tablename expected_dtypes (Some frame) s
  = to_sql tablename frame s.
Proof.
  intros Hne [Hcols Hdtypes]. unfold _write. rewrite Hne.
  rewrite bool_decide_eq_false_2 by (by intros H; apply H).
  destruct (for_each_check_dtype (pd.dtypes frame) expected_dtypes s
              (expected_columns_present _ _ Hcols))
    as [[_ Hrun]|(c & e & a & Hc & Ha & Hneq & _)].
  - unfold bind at 1. unfold bind at 1. by rewrite Hrun.
  - rewrite list_to_map_dtypes in Ha.
    eapply Forall_forall in Hdtypes; [|exact Hc].
    unfold column_dtype in Hdtypes. cbn in Hdtypes. congruence.
Qed.

(** None and an empty batch are replaced by the empty frame of the
    declared dtypes. *)
Lemma _write_empty tablename expected_dtypes frame s :
  is_None_or_empty frame = true →
  _write tablename expected_dtypes frame s
  = to_sql tablename (pd.empty_frame expected_dtypes) s.
Proof.
  intros Hempty. unfold _write.
  destruct frame as [f|]; [|done]. cbn in Hempty. by rewrite Hempty.
Qed.



(** ** Empty batches *)








(** ** Columns of a frame *)

Lemma get_set_eq colname a frame :
  pd.get colname (pd.set colname a frame) = Some a.
Proof.
  induction frame as [|[n b] frame IH]; cbn [pd.set pd.get].
  - by rewrite bool_decide_eq_true_2.
  - destruct (decide (n = colname)) as [->|Hne].
    + rewrite bool_decide_eq_true_2 by done. cbn [pd.get].
      by rewrite bool_decide_eq_true_2.
    + rewrite bool_decide_eq_false_2 by done. cbn [pd.get].
      by rewrite bool_decide_eq_false_2.
Qed.

Lemma get_set_ne colname other a frame :
  colname ≠ other →
  pd.get other (pd.set colname a frame) = pd.get other frame.
Proof.
  intros Hne.
  induction frame as [|[n b] frame IH]; cbn [pd.set pd.get].
  - by rewrite bool_decide_eq_false_2.
  - destruct (decide (n = colname)) as [->|Hn].
    + rewrite bool_decide_eq_true_2 by done. cbn [pd.get].
      by rewrite !bool_decide_eq_false_2.
    + rewrite (bool_decide_eq_false_2 (n = colname)) by done. cbn [pd.get].
      by rewrite IH.
Qed.

Lemma columns_set colname a frame :
  is_Some (pd.get colname frame) →
  pd.columns (pd.set colname a frame) = pd.columns frame.
Proof.
  induction frame as [|[n b] frame IH]; cbn [pd.set pd.get].
  - by intros [? ?].
  - destruct (decide (n = colname)) as [->|Hn].
    + by rewrite bool_decide_eq_true_2.
    + rewrite !bool_decide_eq_false_2 by done. intros Hsome.
      unfold pd.columns in *. cbn. by rewrite IH.
Qed.

Lemma len_index_set colname a b frame :
  pd.get colname frame = Some b →
  len a = len b →
  pd.len_index (pd.set colname a frame) = pd.len_index frame.
Proof.
  destruct frame as [|[n c] frame]; [done|]. cbn [pd.set pd.get].
  destruct (decide (n = colname)) as [->|Hn].
  - rewrite !bool_decide_eq_true_2 by done. intros [= ->]. done.
  - by rewrite !bool_decide_eq_false_2.
Qed.

Lemma empty_set colname a b frame :
  pd.get colname frame = Some b →
  len a = len b →
  pd.empty (pd.set colname a frame) = pd.empty frame.
Proof.
  intros Hget Hlen. pose proof (len_index_set _ _ _ _ Hget Hlen) as Hidx.
  destruct frame as [|[n c] frame]; [done|].
  unfold pd.empty. rewrite Hidx.
  cbn [pd.set]. by case_bool_decide.
Qed.

Lemma len_astype_datetime64_s_int64 a :
  len (astype_datetime64_s_int64 a) = len a.
Proof. destruct a; cbn; by rewrite length_map. Qed.

Lemma encode_date_Ok colname a frame s :
  pd.get colname frame = Some a →
  encode_date colname frame s
  = (Ok (pd.set colname (astype_datetime64_s_int64 a) frame), s).
Proof. intros Hget. unfold encode_date. by rewrite Hget. Qed.

(** What [encode_date] keeps. *)
Lemma encoded_frame colname a frame :
  pd.get colname frame = Some a →
  let frame' := pd.set colname (astype_datetime64_s_int64 a) frame in
  pd.columns frame' = pd.columns frame
  ∧ pd.empty frame' = pd.empty frame
  ∧ pd.get colname frame' = Some (astype_datetime64_s_int64 a)
  ∧ ∀ other, colname ≠ other → pd.get other frame' = pd.get other frame.
Proof.
  intros Hget frame'. repeat split.
  - apply columns_set. by rewrite Hget.
  - eapply empty_set; [exact Hget|apply len_astype_datetime64_s_int64].
  - apply get_set_eq.
  - intros other Hne. by apply get_set_ne.
Qed.

(** [write_frame] hands its batch to [_write] with the effective dates
    as int64 seconds. *)
Lemma write_frame_encoded tablename frame a s :
  tablename ∈ SQLITE_ADJUSTMENT_TABLENAMES →
  pd.empty frame = false →
  pd.get "effective_date" frame = Some a →
  write_frame tablename (Some frame) s
  = _write tablename SQLITE_ADJUSTMENT_COLUMN_DTYPES
      (Some (pd.set "effective_date" (astype_datetime64_s_int64 a) frame)) s.
Proof.
  intros Hname Hne Hget. unfold write_frame.
  rewrite bool_decide_eq_false_2 by (by intros H; apply H).
  rewrite Hne. unfold bind at 1. unfold bind at 1.
  by rewrite (encode_date_Ok _ _ _ _ Hget).
Qed.


(** Writing a batch without an effective_date column is a KeyError,
    and nothing is appended. *)
Lemma write_frame_KeyError tablename frame s :
  tablename ∈ SQLITE_ADJUSTMENT_TABLENAMES →
  pd.empty frame = false →
  pd.get "effective_date" frame = None →
  write_frame tablename (Some frame) s
  = (Raise (KeyError "effective_date"), s).
Proof.
  intros Hname Hne Hget. unfold write_frame.
  rewrite bool_decide_eq_false_2 by (by intros H; apply H).
  rewrite Hne. unfold bind at 1. unfold bind at 1.
  unfold encode_date. by rewrite Hget.
Qed.

(** ** The dividends table *)

Lemma conforms_adjustments sids dates rs :
  conforms SQLITE_ADJUSTMENT_COLUMN_DTYPES
    [ ("sid", IntArray int64 sids);
      ("effective_date", IntArray int64 dates);
      ("ratio", FloatArray rs) ]%string.
Proof. split; [by vm_compute|]. by repeat constructor. Qed.




Lemma get_empty_frame (dts : list (string * dtype)) colname dt :
  NoDup dts.*1 →
  (colname, dt) ∈ dts →
  pd.get colname (pd.empty_frame dts) = Some (empty_array dt).
Proof.
  induction dts as [|[n d] dts IH]; intros Hnodup Hin.
  - by apply elem_of_nil in Hin.
  - cbn in Hnodup. apply NoDup_cons in Hnodup as [Hn Hnodup].
    cbn [pd.empty_frame map pd.get fst snd].
    apply elem_of_cons in Hin as [[= -> ->]|Hin].
    + by rewrite bool_decide_eq_true_2.
    + rewrite bool_decide_eq_false_2; [by apply IH|].
      intros ->. apply Hn. by apply (list_elem_of_fmap_2 fst _ (colname, dt)).
Qed.

Lemma conforms_empty_frame (dts : list (string * dtype)) :
  NoDup dts.*1 → conforms dts (pd.empty_frame dts).
Proof.
  intros Hnodup. split.
  - f_equal. unfold pd.columns, pd.empty_frame.
    change (map ?f ?l) with (f <$> l). rewrite <- list_fmap_compose.
    by apply list_fmap_ext.
  - apply Forall_forall. intros [colname dt] Hin. unfold column_dtype.
    cbn [fst snd]. rewrite (get_empty_frame _ _ _ Hnodup Hin). cbn. by destruct dt.
Qed.

(** What [_write] appends conforms to the declaration. *)
Lemma _write_Ok_conforms tablename (expected_dtypes : list (string * dtype))
    frame s s' :
  NoDup expected_dtypes.*1 →
  _write tablename expected_dtypes frame s = (Ok tt, s') →
  ∃ appended,
    conforms expected_dtypes appended
    ∧ to_sql tablename appended s = (Ok tt, s').
Proof.
  intros Hnodup Hrun.
  destruct (is_None_or_empty frame) eqn:Hempty.
  - rewrite _write_empty in Hrun by done.
    exists (pd.empty_frame expected_dtypes).
    split; [by apply conforms_empty_frame|done].
  - destruct frame as [f|]; [|done]. cbn in Hempty.
    destruct (decide (frozenset (pd.columns f) = frozenset expected_dtypes.*1)) as [Hcols|Hcols].
    + destruct (for_each_check_dtype (pd.dtypes f) expected_dtypes s
                  (expected_columns_present _ _ Hcols))
        as [[Hall _]|(c & e & a & Hc & Ha & Hneq & Hraise)].
      * assert (Hconf : conforms expected_dtypes f).
        { split; [done|]. eapply Forall_impl; [exact Hall|].
          intros item Hitem. unfold column_dtype.
          by rewrite <- list_to_map_dtypes. }
        rewrite _write_conforming in Hrun by done. by exists f.
      * unfold _write in Hrun. rewrite Hempty in Hrun.
        rewrite bool_decide_eq_false_2 in Hrun by (by intros H; apply H).
        unfold bind at 1 in Hrun. unfold bind at 1 in Hrun.
        by rewrite Hraise in Hrun.
    + unfold _write in Hrun. rewrite Hempty in Hrun.
      by rewrite bool_decide_eq_true_2 in Hrun.
Qed.

Lemma write_frame_Ok tablename frame s s' :
  write_frame tablename frame s = (Ok tt, s') →
  tablename ∈ SQLITE_ADJUSTMENT_TABLENAMES
  ∧ ∃ frame',
      _write tablename SQLITE_ADJUSTMENT_COLUMN_DTYPES frame' s = (Ok tt, s').
Proof.
  unfold write_frame. case_bool_decide as Hname; [done|].
  intros Hrun. split; [done|].
  destruct frame as [f|]; [|by exists None].
  destruct (pd.empty f) eqn:Hempty; [by exists (Some f)|].
  unfold bind at 1 in Hrun. unfold bind at 1 in Hrun.
  unfold encode_date in Hrun.
  destruct (pd.get "effective_date" f) as [a|]; [|done].
  cbn in Hrun. by eexists.
Qed.







(** ** Encoding the dates *)

Section update.

Variable g : ndarray → ndarray.
Hypothesis len_g : ∀ a, len (g a) = len a.

Lemma update_columns col frame :
  pd.columns (update g col frame) = pd.columns frame.
Proof.
  unfold update. destruct (pd.get col frame) eqn:Hget; [|done].
  apply columns_set. by rewrite Hget.
Qed.

Lemma update_empty col frame :
  pd.empty (update g col frame) = pd.empty frame.
Proof.
  unfold update. destruct (pd.get col frame) eqn:Hget; [|done].
  eapply empty_set; [exact Hget|apply len_g].
Qed.

Lemma update_get_eq col frame :
  pd.get col (update g col frame) = g <$> pd.get col frame.
Proof.
  unfold update. destruct (pd.get col frame) eqn:Hget.
  - by rewrite get_set_eq.
  - by rewrite Hget.
Qed.

Lemma update_get_ne col other frame :
  col ≠ other → pd.get other (update g col frame) = pd.get other frame.
Proof.
  intros Hne. unfold update. destruct (pd.get col frame); [|done].
  by apply get_set_ne.
Qed.

Lemma update_all_columns cols frame :
  pd.columns (update_all g cols frame) = pd.columns frame.
Proof.
  revert frame. induction cols as [|col cols IH]; intros frame; [done|].
  cbn. unfold update_all in IH. by rewrite IH, update_columns.
Qed.

Lemma update_all_empty cols frame :
  pd.empty (update_all g cols frame) = pd.empty frame.
Proof.
  revert frame. induction cols as [|col cols IH]; intros frame; [done|].
  cbn. unfold update_all in IH. by rewrite IH, update_empty.
Qed.

Lemma update_all_get_other cols other frame :
  other ∉ cols →
  pd.get other (update_all g cols frame) = pd.get other frame.
Proof.
  revert frame.
  induction cols as [|col cols IH]; intros frame Hnot; [done|].
  apply not_elem_of_cons in Hnot as [Hne Hnot].
  cbn. unfold update_all in IH. rewrite IH by done.
  by apply update_get_ne.
Qed.

Lemma update_all_get cols col frame :
  NoDup cols → col ∈ cols →
  pd.get col (update_all g cols frame) = g <$> pd.get col frame.
Proof.
  revert frame. induction cols as [|c cols IH]; intros frame Hnodup Hin.
  - by apply elem_of_nil in Hin.
  - apply NoDup_cons in Hnodup as [Hc Hnodup]. cbn.
    apply elem_of_cons in Hin as [->|Hin].
    + change (foldl _ ?f cols) with (update_all g cols f).
      rewrite update_all_get_other by done. apply update_get_eq.
    + unfold update_all in IH. rewrite IH by done.
      rewrite update_get_ne; [done|]. by intros ->.
Qed.

End update.

Lemma reencode_columns col frame :
  pd.columns (reencode col frame) = pd.columns frame.
Proof. apply update_columns. Qed.

Lemma encoded_columns cols frame :
  pd.columns (encoded cols frame) = pd.columns frame.
Proof. apply update_all_columns. Qed.

Lemma encoded_empty cols frame :
  pd.empty (encoded cols frame) = pd.empty frame.
Proof. apply update_all_empty, len_astype_datetime64_s_int64. Qed.

Lemma encoded_get_other cols other frame :
  other ∉ cols → pd.get other (encoded cols frame) = pd.get other frame.
Proof. apply update_all_get_other. Qed.

Lemma encoded_get cols col frame :
  NoDup cols → col ∈ cols →
  pd.get col (encoded cols frame)
  = astype_datetime64_s_int64 <$> pd.get col frame.
Proof. apply update_all_get. Qed.

Lemma encode_date_reencode col frame s :
  is_Some (pd.get col frame) →
  encode_date col frame s = (Ok (reencode col frame), s).
Proof.
  intros [a Hget]. unfold encode_date, reencode, update. by rewrite Hget.
Qed.

Lemma reencode_is_Some col other frame :
  is_Some (pd.get other (reencode col frame)) ↔ is_Some (pd.get other frame).
Proof. by rewrite !get_is_Some, reencode_columns. Qed.

(** The four encodings of [_write_dividends] and
    [_write_stock_dividends]. *)
Lemma encode_payout_dates {A} frame (k : option DataFrame → M State A) s :
  Forall (λ col, is_Some (pd.get col frame)) PAYOUT_DATES →
  (let* payouts :=
     (let* f := encode_date "ex_date" frame in
      let* f := encode_date "record_date" f in
      let* f := encode_date "declared_date" f in
      let* f := encode_date "pay_date" f in
      ret (Some f)) in
   k payouts) s
  = k (Some (encoded PAYOUT_DATES frame)) s.
Proof.
  intros Hall.
  apply Forall_cons in Hall as [H1 Hall].
  apply Forall_cons in Hall as [H2 Hall].
  apply Forall_cons in Hall as [H3 Hall].
  apply Forall_cons in Hall as [H4 _].
  unfold bind.
  rewrite (encode_date_reencode _ _ _ H1).
  rewrite encode_date_reencode by (by apply reencode_is_Some).
  rewrite encode_date_reencode by (by do 2 apply reencode_is_Some).
  rewrite encode_date_reencode by (by do 3 apply reencode_is_Some).
  done.
Qed.

Lemma _write_dividends_encoded frame s :
  Forall (λ col, is_Some (pd.get col frame)) PAYOUT_DATES →
  _write_dividends (Some frame) s
  = write_dividend_payouts (Some (encoded PAYOUT_DATES frame)) s.
Proof. intros Hall. unfold _write_dividends. by apply encode_payout_dates. Qed.

Lemma _write_stock_dividends_encoded frame s :
  Forall (λ col, is_Some (pd.get col frame)) PAYOUT_DATES →
  _write_stock_dividends (Some frame) s
  = write_stock_dividend_payouts (Some (encoded PAYOUT_DATES frame)) s.
Proof.
  intros Hall. unfold _write_stock_dividends. by apply encode_payout_dates.
Qed.

(** A closed decidable goal, by evaluation. *)
Ltac decide_closed :=
  match goal with
  | |- ?P => apply (bool_decide_unpack P); by vm_compute
  end.

(** ** [write_dividend_data] *)

Lemma get_len colname a frame :
  pd.well_formed frame → pd.get colname frame = Some a →
  len a = pd.len_index frame.
Proof.
  unfold pd.well_formed. generalize (pd.len_index frame) as n.
  intros n Hwf. induction Hwf as [|[c b] frame Hc _ IH]; [done|].
  cbn [pd.get]. case_bool_decide; [|done]. by intros [= <-].
Qed.

Lemma column_dtype_int frame colname k :
  column_dtype frame colname = Some (Integer k) →
  ∃ xs, pd.get colname frame = Some (IntArray k xs).
Proof.
  unfold column_dtype. destruct (pd.get colname frame) as [[k' xs|xs]|];
    [|done..]. intros [= ->]. by exists xs.
Qed.

Lemma column_dtype_float frame colname :
  column_dtype frame colname = Some Float64 →
  ∃ xs, pd.get colname frame = Some (FloatArray xs).
Proof.
  unfold column_dtype. destruct (pd.get colname frame) as [[k' xs|xs]|];
    [done| |done]. intros _. by exists xs.
Qed.




Lemma zip3_map_middle {A B C} (f : B → B) (xs : list A) (ys : list B)
    (zs : list C) :
  zip (zip xs (map f ys)) zs
  = map (λ r, (r.1.1, f r.1.2, r.2)) (zip (zip xs ys) zs).
Proof.
  revert ys zs. induction xs as [|x xs IH]; intros [|y ys] [|z zs];
    try done. cbn. by rewrite IH.
Qed.










(** ** Writing a batch and reading it back *)



Lemma len_to_datetime a : len (to_datetime a) = len a.
Proof. destruct a; cbn; [by rewrite length_map|done]. Qed.




Lemma declared_date_dtype tablename date_cols colname dt :
  (tablename, date_cols) ∈ _datetime_int_cols →
  (colname, dt) ∈ declared_dtypes tablename →
  colname ∈ date_cols →
  dt = int64_dtype.
Proof.
  intros Hin. unfold _datetime_int_cols in Hin.
  repeat (apply elem_of_cons in Hin as [Hin|Hin]);
    try (by apply elem_of_nil in Hin);
    injection Hin as -> ->; intros Hdecl Hcol.
  all: vm_compute in Hdecl.
  all: repeat (apply elem_of_cons in Hdecl as [[= -> ->]|Hdecl]);
    try (by apply elem_of_nil in Hdecl); try done.
  all: repeat (apply elem_of_cons in Hcol as [Hcol|Hcol]);
    try (by apply elem_of_nil in Hcol); done.
Qed.

(** Each writing method encodes the date columns of its table and
    hands the batch to [_write] with the table's declaration. *)
Lemma write_batch_encoded tablename date_cols frame s :
  (tablename, date_cols) ∈ _datetime_int_cols →
  valid_batch tablename date_cols frame →
  ∃ cols,
    NoDup cols
    ∧ (∀ col, col ∈ cols ↔ col ∈ date_cols)
    ∧ write_batch tablename (Some frame) s
      = _write tablename (declared_dtypes tablename)
          (Some (encoded cols frame)) s.
Proof.
  intros Hin (Hne & _ & _ & Hdates).
  assert (Hsome : ∀ col, col ∈ date_cols → is_Some (pd.get col frame)).
  { intros col Hcol.
    eapply Forall_forall in Hdates as (k & xs & ->); [|exact Hcol]. eauto. }
  unfold _datetime_int_cols in Hin.
  repeat (apply elem_of_cons in Hin as [Hin|Hin]);
    try (by apply elem_of_nil in Hin);
    injection Hin as -> ->.
  - exists PAYOUT_DATES. split; [decide_closed|].
    split; [intros col; unfold PAYOUT_DATES;
            rewrite !elem_of_cons, !elem_of_nil; tauto|].
    unfold write_batch. rewrite bool_decide_eq_true_2 by done.
    apply _write_dividends_encoded.
    repeat (apply Forall_cons_2; [apply Hsome; decide_closed|]).
    apply Forall_nil_2.
  - exists ["effective_date"%string]. split; [decide_closed|].
    split; [done|].
    destruct (Hsome "effective_date"%string) as [a Ha]; [decide_closed|].
    unfold write_batch. rewrite !bool_decide_eq_false_2 by done.
    rewrite (write_frame_encoded _ _ a) by (done || decide_closed).
    unfold encoded, update_all, update. cbn [foldl]. by rewrite Ha.
  - exists ["effective_date"%string]. split; [decide_closed|].
    split; [done|].
    destruct (Hsome "effective_date"%string) as [a Ha]; [decide_closed|].
    unfold write_batch. rewrite !bool_decide_eq_false_2 by done.
    rewrite (write_frame_encoded _ _ a) by (done || decide_closed).
    unfold encoded, update_all, update. cbn [foldl]. by rewrite Ha.
  - exists ["effective_date"%string]. split; [decide_closed|].
    split; [done|].
    destruct (Hsome "effective_date"%string) as [a Ha]; [decide_closed|].
    unfold write_batch. rewrite !bool_decide_eq_false_2 by done.
    rewrite (write_frame_encoded _ _ a) by (done || decide_closed).
    unfold encoded, update_all, update. cbn [foldl]. by rewrite Ha.
  - exists PAYOUT_DATES. split; [decide_closed|].
    split; [intros col; unfold PAYOUT_DATES;
            rewrite !elem_of_cons, !elem_of_nil; tauto|].
    unfold write_batch. rewrite bool_decide_eq_false_2 by done.
    rewrite bool_decide_eq_true_2 by done.
    apply _write_stock_dividends_encoded.
    repeat (apply Forall_cons_2; [apply Hsome; decide_closed|]).
    apply Forall_nil_2.
Qed.

Lemma valid_batch_encoded tablename date_cols cols frame :
  (tablename, date_cols) ∈ _datetime_int_cols →
  valid_batch tablename date_cols frame →
  NoDup cols →
  (∀ col, col ∈ cols ↔ col ∈ date_cols) →
  pd.empty (encoded cols frame) = false
  ∧ conforms (declared_dtypes tablename) (encoded cols frame).
Proof.
  intros Hin (Hne & Hcols & Hother & Hdates) Hnodup Hsame.
  split; [by rewrite encoded_empty|].
  split; [by rewrite encoded_columns|].
  apply Forall_forall. intros [colname dt] Hdecl. cbn [fst snd].
  unfold column_dtype.
  destruct (decide (colname ∈ date_cols)) as [Hdate|Hdate].
  - rewrite encoded_get by (done || by apply Hsame).
    eapply Forall_forall in Hdates as (k & xs & ->); [|exact Hdate].
    by rewrite (declared_date_dtype _ _ _ _ Hin Hdecl Hdate).
  - rewrite encoded_get_other by (by rewrite Hsame).
    eapply Forall_forall in Hother; [|exact Hdecl].
    by destruct Hother as [?|?].
Qed.

Lemma adjustment_rows_dates frame table k k' xs (f : Z → Z) :
  pd.get "sid" table = pd.get "sid" frame →
  pd.get "ratio" table = pd.get "ratio" frame →
  pd.get "effective_date" frame = Some (IntArray k xs) →
  pd.get "effective_date" table = Some (IntArray k' (map f xs)) →
  adjustment_rows table
  = map (λ r, (r.1.1, f r.1.2, r.2)) (adjustment_rows frame).
Proof.
  intros Hsid Hratio Hframe Htable. unfold adjustment_rows.
  rewrite Hsid, Hratio, Hframe, Htable.
  destruct (pd.get "sid" frame) as [[ks sids|]|]; try done.
  destruct (pd.get "ratio" frame) as [[|rs]|]; try done.
  apply zip3_map_middle.
Qed.




Lemma dates_as_adjustment_rows date_cols out conv frame table k xs :
  dates_as date_cols out conv frame table →
  "effective_date"%string ∈ date_cols →
  "sid"%string ∉ date_cols → "ratio"%string ∉ date_cols →
  pd.get "effective_date" frame = Some (IntArray k xs) →
  adjustment_rows table
  = map (λ r, (r.1.1, conv k r.1.2, r.2)) (adjustment_rows frame).
Proof.
  intros (_ & Hother & Hdate) Hin Hsid Hratio Hget.
  eapply adjustment_rows_dates; eauto.
Qed.





(** ** Chunks *)






(** ** [get_dividends_with_ex_date] *)

Lemma collect_app {A B} (f : A → result B) (xs ys : list A) :
  collect f (xs ++ ys)
  = query.and_then (collect f xs) (λ xs',
    query.and_then (collect f ys) (λ ys', Ok (xs' ++ ys'))).
Proof.
  induction xs as [|x xs IH]; cbn [collect app query.and_then].
  - by destruct (collect f ys).
  - destruct (f x) as [y|e]; [|done]. cbn [query.and_then]. rewrite IH.
    destruct (collect f xs) as [xs'|e]; [|done]. cbn [query.and_then].
    by destruct (collect f ys).
Qed.




Lemma UNPAID_QUERY_unpaid seconds chunk conn :
  query.UNPAID_QUERY seconds chunk conn
  = query.and_then (dividend_payouts conn)
      (λ rows, Ok (unpaid seconds chunk rows)).
Proof.
  unfold query.UNPAID_QUERY, dividend_payouts.
  destruct (query.from _ _) as [table|]; [|done]. cbn [query.and_then].
  destruct (query.integers table "sid"); [|done]. cbn [query.and_then].
  destruct (query.reals table "amount"); [|done]. cbn [query.and_then].
  destruct (query.integers table "pay_date"); [|done]. cbn [query.and_then].
  by destruct (query.integers table "ex_date").
Qed.

Section get_dividends.

Context {Asset : Type}.
Variable retrieve_asset : Z → result Asset.

(** The loop over the rows of one chunk. *)
Lemma dividends_of_rows rows (divs : list (Dividend Asset)) (s : Session) :
  for_each
    (λ divs row,
       let* a := lift (retrieve_asset row.1.1) in
       let* t := lift (Timestamp row.2) in
       let div := {| asset := a; amount := row.1.2; pay_date := t |} in
       ret (divs ++ [div]))
    rows divs s
  = match collect (to_dividend retrieve_asset) rows with
    | Ok new => (Ok (divs ++ new), s)
    | Raise e => (Raise e, s)
    end.
Proof.
  revert divs. induction rows as [|row rows IH]; intros divs.
  - cbn. by rewrite app_nil_r.
  - cbn [for_each collect]. unfold to_dividend at 1.
    unfold bind at 1. unfold bind at 1. unfold lift at 1.
    destruct (retrieve_asset row.1.1) as [a|e]; [|done].
    cbn [query.and_then]. unfold bind at 1. unfold lift at 1.
    destruct (Timestamp row.2) as [t|e]; [|done].
    cbn [query.and_then]. unfold ret at 1. rewrite IH.
    destruct (collect _ rows) as [new|e]; [|done].
    cbn [query.and_then]. by rewrite <- (assoc_L (++)).
Qed.

(** The loop over the chunks, with the cursor open. *)
Lemma dividends_of_chunks c seconds chunks rows
    (divs : list (Dividend Asset)) (s : Session) :
  c ∈ cursors s →
  dividend_payouts (db s) = Ok rows →
  for_each
    (λ divs chunk,
       let* rows :=
         execute_fetchall c (query.UNPAID_QUERY seconds chunk) in
       for_each
         (λ divs row,
            let* a := lift (retrieve_asset row.1.1) in
            let* t := lift (Timestamp row.2) in
            let div := {| asset := a; amount := row.1.2;
                          pay_date := t |} in
            ret (divs ++ [div]))
         rows divs)
    chunks divs s
  = match collect (to_dividend retrieve_asset)
            (chunks ≫= λ chunk, unpaid seconds chunk rows) with
    | Ok new => (Ok (divs ++ new), s)
    | Raise e => (Raise e, s)
    end.
Proof.
  intros Hc Hrows. revert divs.
  induction chunks as [|chunk chunks IH]; intros divs.
  - cbn. by rewrite app_nil_r.
  - cbn [for_each]. rewrite bind_cons, collect_app.
    unfold bind at 1. unfold bind at 1. unfold execute_fetchall at 1.
    rewrite bool_decide_eq_true_2 by done.
    rewrite UNPAID_QUERY_unpaid, Hrows. cbn [query.and_then].
    rewrite dividends_of_rows.
    destruct (collect _ (unpaid seconds chunk rows)) as [new|e]; [|done].
    cbn [query.and_then]. rewrite IH.
    destruct (collect _ (chunks ≫= _)) as [new'|e]; [|done].
    cbn [query.and_then]. by rewrite <- (assoc_L (++)).
Qed.

(** [get_dividends_with_ex_date] in one piece. *)
Lemma get_dividends_with_ex_date_run chunk_size assets date s :
  get_dividends_with_ex_date retrieve_asset chunk_size assets date s
  = match group_into_chunks chunk_size assets with
    | [] => (Ok [], closed s)
    | chunks =>
        match dividend_payouts (db s) with
        | Raise e => (Raise e, opened s)
        | Ok rows =>
            match collect (to_dividend retrieve_asset)
                    (chunks ≫= λ chunk,
                       unpaid (date `div` 1000000000) chunk rows) with
            | Ok divs => (Ok divs, closed s)
            | Raise e => (Raise e, opened s)
            end
        end
    end.
Proof.
  unfold get_dividends_with_ex_date.
  unfold bind at 1. unfold cursor at 1.
  change {| db := db s; cursors := {[issued s]} ∪ cursors s;
            issued := Datatypes.S (issued s) |} with (opened s).
  assert (Hc : issued s ∈ cursors (opened s)) by (cbn; set_solver).
  destruct (group_into_chunks chunk_size assets) as [|chunk chunks];
    [done|].
  destruct (dividend_payouts (db s)) as [rows|e] eqn:Hrows.
  - unfold bind at 1.
    rewrite (dividends_of_chunks _ _ _ rows) by done.
    by destruct (collect _ _).
  - unfold bind at 1. cbn [for_each]. unfold bind at 1. unfold bind at 1.
    unfold execute_fetchall at 1. rewrite bool_decide_eq_true_2 by done.
    rewrite UNPAID_QUERY_unpaid. cbn [opened db]. by rewrite Hrows.
Qed.

End get_dividends.






(** ** Cursors *)

Lemma preserves_ret {A} (a : A) : preserves (ret a).
Proof. by intros s. Qed.

Lemma preserves_lift {A} (r : result A) : preserves (lift r).
Proof. by intros s. Qed.

Lemma preserves_execute_fetchall {A} c (q : Connection → result A) :
  preserves (execute_fetchall c q).
Proof. intros s. unfold execute_fetchall. by case_bool_decide. Qed.

Lemma preserves_bind {A B} (m : M Session A) (k : A → M Session B) :
  preserves m → (∀ a, preserves (k a)) → preserves (bind m k).
Proof.
  intros Hm Hk s. unfold bind. specialize (Hm s).
  destruct (m s) as [[a|e] s']; cbn in Hm; subst s'; [apply Hk|done].
Qed.

Lemma preserves_for_each {A B} (body : B → A → M Session B) xs acc :
  (∀ acc x, preserves (body acc x)) → preserves (for_each body xs acc).
Proof.
  intros Hbody. revert acc. induction xs as [|x xs IH]; intros acc.
  - apply preserves_ret.
  - cbn [for_each]. apply preserves_bind; [apply Hbody|apply IH].
Qed.

Create HintDb preserves.

#[local] Hint Resolve preserves_ret preserves_lift
  preserves_execute_fetchall : preserves.

Ltac preserves :=
  repeat first
    [ apply preserves_for_each; intros
    | apply preserves_bind; [|intros]
    | solve [eauto with preserves] ].

(** A cursor is opened, the body runs, the cursor is closed: when the
    body raises, the close is not reached. *)
Lemma cursor_scope {A} (body : nat → M Session A) s :
  (∀ c, preserves (body c)) →
  (let* c := cursor in let* r := body c in close c;;; ret r) s
  = match (body (issued s) (opened s)).1 with
    | Ok r => (Ok r, closed s)
    | Raise e => (Raise e, opened s)
    end.
Proof.
  intros Hbody. unfold bind at 1. unfold cursor at 1.
  change {| db := db s; cursors := {[issued s]} ∪ cursors s;
            issued := Datatypes.S (issued s) |} with (opened s).
  unfold bind at 1. specialize (Hbody (issued s) (opened s)).
  destruct (body (issued s) (opened s)) as [[r|e] s']; cbn in Hbody;
    by subst s'.
Qed.

Lemma issued_in_opened s : issued s ∈ cursors (opened s).
Proof. cbn. apply elem_of_union_l, elem_of_singleton_2. done. Qed.

Lemma issued_not_in_closed s : issued s ∉ cursors (closed s).
Proof.
  cbn. intros [_ Hnot]%elem_of_difference.
  by apply Hnot, elem_of_singleton_2.
Qed.

(** C9 as stated fails: the query on a store without dividend_payouts
    raises, and the cursor the call opened is still open. *)
Lemma get_dividends_with_ex_date_leaks_cursor :
  let fresh := {| db := ∅; cursors := ∅; issued := 0 |} in
  let call :=
    get_dividends_with_ex_date (λ sid, Ok sid) 998 [42] example.ex_date
      fresh in
  call.1 = Raise (OperationalError "dividend_payouts")
  ∧ 0%nat ∈ cursors call.2.
Proof. split; [by vm_compute|]. apply (issued_in_opened {| db := ∅; cursors := ∅; issued := 0 |}). Qed.

(** C9 (amended): each reader call closes the cursor it opened before
    it returns normally; when the execution of a query or the
    resolution of a row raises, the exception leaves the call with the
    cursor still open. In [get_adjustments_for_sid] the rows are turned
    into timestamps after the cursor was closed. *)
Theorem reader_cursor {Asset : Type} (retrieve_asset : Z → result Asset)
    chunk_size assets date table_name sid s :
  match get_dividends_with_ex_date retrieve_asset chunk_size assets date s
  with
  | (Ok _, s') => s' = closed s
  | (Raise _, s') => s' = opened s
  end
  ∧ match get_stock_dividends_with_ex_date retrieve_asset chunk_size
            assets date s with
    | (Ok _, s') => s' = closed s
    | (Raise _, s') => s' = opened s
    end
  ∧ match query.adjustments_for_sid table_name sid (db s) with
    | Ok _ => (get_adjustments_for_sid table_name sid s).2 = closed s
    | Raise e =>
        get_adjustments_for_sid table_name sid s = (Raise e, opened s)
    end
  ∧ issued s ∈ cursors (opened s)
  ∧ issued s ∉ cursors (closed s).
Proof.
  split; [|split; [|split; [|split]]].
  - unfold get_dividends_with_ex_date.
    rewrite (cursor_scope
      (λ c, for_each _ (group_into_chunks chunk_size assets) []))
      by (intros; preserves).
    by destruct (for_each _ _ _ _).1.
  - unfold get_stock_dividends_with_ex_date.
    rewrite (cursor_scope
      (λ c, for_each _ (group_into_chunks chunk_size assets) []))
      by (intros; preserves).
    by destruct (for_each _ _ _ _).1.
  - assert (Hrun : ∀ k : list (Z * float64) → M Session (list (Z * float64)),
              (let* c := cursor in
               let* rows := execute_fetchall c
                              (query.adjustments_for_sid table_name sid) in
               close c;;; k rows) s
              = match query.adjustments_for_sid table_name sid (db s) with
                | Ok rows => k rows (closed s)
                | Raise e => (Raise e, opened s)
                end).
    { intros k. unfold bind at 1. unfold cursor at 1.
      change {| db := db s; cursors := {[issued s]} ∪ cursors s;
                issued := Datatypes.S (issued s) |} with (opened s).
      unfold bind at 1. unfold execute_fetchall at 1.
      rewrite bool_decide_eq_true_2 by apply issued_in_opened.
      change (db (opened s)) with (db s).
      by destruct (query.adjustments_for_sid table_name sid (db s)). }
    unfold get_adjustments_for_sid. rewrite Hrun.
    destruct (query.adjustments_for_sid table_name sid (db s)) as [rows|e];
      [|done].
    apply preserves_for_each. intros. preserves.
  - apply issued_in_opened.
  - apply issued_not_in_closed.
Qed.

(** * Further properties *)

(** ** What a table write leaves alone *)

Lemma to_sql_Raise tablename frame s e s' :
  to_sql tablename frame s = (Raise e, s') → s' = s.
Proof.
  unfold to_sql. destruct (sql.to_sql tablename frame (conn s)); [done|].
  by intros [= _ <-].
Qed.

Lemma to_sql_Ok tablename frame s s' :
  to_sql tablename frame s = (Ok tt, s') →
  log s' = log s
  ∧ bar_reads s' = bar_reads s
  ∧ ∀ other, other ≠ tablename → conn s' !! other = conn s !! other.
Proof.
  unfold to_sql, sql.to_sql.
  destruct (conn s !! tablename) as [table|].
  - destruct (forallb _ _); [|done].
    destruct (sql.insert_rows table frame); [|done].
    intros [= <-]. cbn. repeat split. intros other Hne.
    by rewrite lookup_insert_ne.
  - intros [= <-]. cbn. repeat split. intros other Hne.
    by rewrite lookup_insert_ne.
Qed.

Lemma for_each_check_dtype_state actual_dtypes expected_dtypes s :
  (for_each (check_dtype actual_dtypes) expected_dtypes tt s).2 = s.
Proof.
  induction expected_dtypes as [|[colname expected] rest IH]; [done|].
  cbn [for_each]. unfold bind, check_dtype at 1.
  destruct (list_to_map actual_dtypes !! colname) as [actual|]; [|done].
  destruct (negb (issubdtype actual expected)); [done|]. cbn.
  destruct (for_each _ rest tt s) as [[[]|e] s'] eqn:Hrest;
    cbn in IH; by subst s'.
Qed.

(** The batch [_write] hands to [to_sql], when it gets that far. *)
Lemma _write_cases tablename expected_dtypes frame s :
  (∃ e, _write tablename expected_dtypes frame s = (Raise e, s))
  ∨ (∃ appended,
       _write tablename expected_dtypes frame s
       = to_sql tablename appended s).
Proof.
  unfold _write.
  destruct frame as [f|]; [|right; by eexists].
  destruct (pd.empty f); [right; by eexists|].
  case_bool_decide; [left; by eexists|].
  pose proof (for_each_check_dtype_state (pd.dtypes f) expected_dtypes s)
    as Hstate.
  destruct (for_each _ expected_dtypes tt s) as [[[]|e] s'] eqn:Hfor;
    cbn in Hstate; subst s'.
  - right. exists f. unfold bind. by rewrite Hfor.
  - left. exists e. unfold bind. by rewrite Hfor.
Qed.

(** A table write that raises has appended nothing; one that returns
    has changed no other table, and neither the log nor the record of
    bar reads. *)
Theorem _write_all_or_nothing tablename expected_dtypes frame s :
  match _write tablename expected_dtypes frame s with
  | (Raise _, s') => s' = s
  | (Ok _, s') =>
      log s' = log s
      ∧ bar_reads s' = bar_reads s
      ∧ ∀ other, other ≠ tablename → conn s' !! other = conn s !! other
  end.
Proof.
  destruct (_write_cases tablename expected_dtypes frame s)
    as [[e ->]|[appended ->]]; [done|].
  destruct (to_sql tablename appended s) as [[[]|e] s'] eqn:Hsql.
  - by apply to_sql_Ok in Hsql.
  - by apply to_sql_Raise in Hsql.
Qed.

Lemma sql_to_sql_Raise tablename frame (c : Connection) e :
  sql.to_sql tablename frame c = Raise e → e = OperationalError tablename.
Proof.
  unfold sql.to_sql. destruct (c !! tablename) as [table|]; [|done].
  destruct (forallb _ _); [|by intros [= <-]].
  destruct (sql.insert_rows table frame); [done|by intros [= <-]].
Qed.

Lemma to_sql_Raise_OperationalError tablename frame s e s' :
  to_sql tablename frame s = (Raise e, s') →
  s' = s ∧ e = OperationalError tablename.
Proof.
  intros Hrun. split; [by eapply to_sql_Raise|].
  unfold to_sql in Hrun.
  destruct (sql.to_sql tablename frame (conn s)) as [c|e'] eqn:Hsql; [done|].
  injection Hrun as <- _. by eapply sql_to_sql_Raise.
Qed.

(** What [_write] can raise on a batch that is not empty. *)
Lemma _write_Raise tablename (expected_dtypes : list (string * dtype))
    frame s e s' :
  pd.empty frame = false →
  _write tablename expected_dtypes (Some frame) s = (Raise e, s') →
  s' = s
  ∧ (e = ValueError_columns expected_dtypes.*1 (pd.columns frame)
     ∨ (∃ colname expected actual,
          e = TypeError_dtype colname expected actual
          ∧ (colname, expected) ∈ expected_dtypes
          ∧ column_dtype frame colname = Some actual
          ∧ actual ≠ expected)
     ∨ e = OperationalError tablename).
Proof.
  intros Hne Hrun. unfold _write in Hrun. rewrite Hne in Hrun.
  destruct (decide (frozenset (pd.columns frame)
                    = frozenset expected_dtypes.*1)) as [Hcols|Hcols].
  - rewrite bool_decide_eq_false_2 in Hrun by (by intros H; apply H).
    destruct (for_each_check_dtype (pd.dtypes frame) expected_dtypes s
                (expected_columns_present _ _ Hcols))
      as [[_ Hfor]|(c & ex & a & Hc & Ha & Hneq & Hfor)];
      unfold bind at 1 in Hrun; unfold bind at 1 in Hrun;
      rewrite Hfor in Hrun.
    + apply to_sql_Raise_OperationalError in Hrun as [-> ->]. auto.
    + injection Hrun as <- <-. split; [done|]. right. left.
      exists c, ex, a. rewrite list_to_map_dtypes in Ha. by repeat split.
  - rewrite bool_decide_eq_true_2 in Hrun by done.
    injection Hrun as <- <-. auto.
Qed.

(** ** What [write_frame] raises *)

Lemma adjustment_dtype_effective_date expected :
  ("effective_date"%string, expected) ∈ SQLITE_ADJUSTMENT_COLUMN_DTYPES →
  expected = int64_dtype.
Proof.
  unfold SQLITE_ADJUSTMENT_COLUMN_DTYPES.
  intros Hin.
  repeat (apply elem_of_cons in Hin as [[= <-]|Hin]); try done.
  by apply elem_of_nil in Hin.
Qed.

Lemma adjustment_columns colname expected :
  (colname, expected) ∈ SQLITE_ADJUSTMENT_COLUMN_DTYPES →
  colname ∈ ["effective_date"; "ratio"; "sid"]%string.
Proof.
  unfold SQLITE_ADJUSTMENT_COLUMN_DTYPES. intros Hin.
  repeat (apply elem_of_cons in Hin as [[= -> ->]|Hin]);
    try decide_closed.
  by apply elem_of_nil in Hin.
Qed.

(** Every exception of [write_frame] leaves the store as it was. The
    table name is checked first, also for None; a batch that is not
    empty needs an effective_date column, whose dtype is never the
    matter of a TypeError since the column is cast to int64 seconds
    before the check. *)
Theorem write_frame_raises tablename frame s e s' :
  write_frame tablename frame s = (Raise e, s') →
  s' = s
  ∧ ((e = ValueError_table tablename
      ∧ tablename ∉ SQLITE_ADJUSTMENT_TABLENAMES)
     ∨ (e = KeyError "effective_date"
        ∧ ∃ f, frame = Some f ∧ pd.empty f = false
               ∧ pd.get "effective_date" f = None)
     ∨ (∃ received,
          e = ValueError_columns SQLITE_ADJUSTMENT_COLUMN_DTYPES.*1 received)
     ∨ (∃ colname expected actual,
          e = TypeError_dtype colname expected actual
          ∧ colname ∈ ["ratio"; "sid"]%string
          ∧ actual ≠ expected)
     ∨ e = OperationalError tablename).
Proof.
  unfold write_frame. case_bool_decide as Hname.
  { intros [= <- <-]. auto. }
  assert (Hempty : ∀ f, is_None_or_empty f = true →
            _write tablename SQLITE_ADJUSTMENT_COLUMN_DTYPES f s
            = (Raise e, s') →
            s' = s ∧ e = OperationalError tablename).
  { intros f Hf Hrun. rewrite _write_empty in Hrun by done.
    by apply to_sql_Raise_OperationalError in Hrun. }
  destruct frame as [f|].
  2:{ intros Hrun. destruct (Hempty None eq_refl Hrun) as [-> ->].
      split; [done|]. do 4 right. done. }
  destruct (pd.empty f) eqn:Hf.
  { intros Hrun. destruct (Hempty (Some f) Hf Hrun) as [-> ->].
    split; [done|]. do 4 right. done. }
  unfold bind at 1. unfold bind at 1. unfold encode_date.
  destruct (pd.get "effective_date" f) as [a|] eqn:Hget.
  2:{ intros [= <- <-]. split; [done|]. right. left.
      split; [done|]. by exists f. }
  cbn [ret]. intros Hrun.
  apply _write_Raise in Hrun as [-> Hcases].
  2:{ erewrite empty_set; [exact Hf|exact Hget|].
      apply len_astype_datetime64_s_int64. }
  split; [done|].
  destruct Hcases as [He|[(c & ex & ac & He & Hc & Hdtype & Hneq)|He]];
    subst e.
  - right. right. left. by eexists.
  - right. right. right. left. exists c, ex, ac.
    split; [done|]. split; [|done].
    apply adjustment_columns in Hc as Hcol.
    apply elem_of_cons in Hcol as [->|Hcol]; [|done].
    apply adjustment_dtype_effective_date in Hc as ->.
    unfold column_dtype in Hdtype. rewrite get_set_eq in Hdtype.
    unfold int64_dtype in *. destruct a; cbn in Hdtype; congruence.
  - do 4 right. done.
Qed.

Lemma write_frame_raises_witness :
  write_frame "splits"
    (Some [ ("sid", FloatArray [example.half]);
            ("effective_date", FloatArray [example.half]);
            ("ratio", FloatArray [example.half]) ]%string)
    example.fresh
  = (Raise (TypeError_dtype "sid" int64_dtype float64_dtype), example.fresh).
Proof.
  destruct (write_frame "splits"
              (Some [ ("sid", FloatArray [example.half]);
                      ("effective_date", FloatArray [example.half]);
                      ("ratio", FloatArray [example.half]) ]%string)
              example.fresh) as [r s'] eqn:Hrun.
  assert (Hr : (write_frame "splits"
                  (Some [ ("sid", FloatArray [example.half]);
                          ("effective_date", FloatArray [example.half]);
                          ("ratio", FloatArray [example.half]) ]%string)
                  example.fresh).1
               = Raise (TypeError_dtype "sid" int64_dtype float64_dtype))
    by (vm_compute; reflexivity).
  rewrite Hrun in Hr. cbn [fst] in Hr. subst r.
  destruct (write_frame_raises _ _ _ _ _ Hrun) as [-> _]. reflexivity.
Defined.

(** ** Payout batches without their date columns *)

(** [_write_dividends] encodes the four date columns before the batch
    is looked at, an empty batch included: the first of ex_date,
    record_date, declared_date and pay_date the batch lacks is a
    KeyError, and nothing is written. *)
Theorem _write_dividends_KeyError frame before col after s :
  PAYOUT_DATES = before ++ col :: after →
  Forall (λ c, is_Some (pd.get c frame)) before →
  pd.get col frame = None →
  _write_dividends (Some frame) s = (Raise (KeyError col), s)
  ∧ _write_stock_dividends (Some frame) s = (Raise (KeyError col), s).
Proof.
  intros Hdates Hbefore Hcol. unfold PAYOUT_DATES in Hdates.
  assert (Hstep : ∀ c f, is_Some (pd.get c frame) →
            encode_date c (encoded f frame) s
            = (Ok (reencode c (encoded f frame)), s)).
  { intros c f Hc. apply encode_date_reencode.
    by rewrite get_is_Some, encoded_columns, <- get_is_Some. }
  assert (Hfail : ∀ f, encode_date col (encoded f frame) s
                       = (Raise (KeyError col), s)).
  { intros f. unfold encode_date.
    destruct (pd.get col (encoded f frame)) eqn:Hget; [|done].
    assert (is_Some (pd.get col (encoded f frame))) as Hsome by eauto.
    rewrite get_is_Some, encoded_columns, <- get_is_Some in Hsome.
    rewrite Hcol in Hsome. by destruct Hsome. }
  unfold _write_dividends, _write_stock_dividends.
  destruct before as [|c1 before]; injection Hdates as <- Hdates.
  { pose proof (Hfail []) as H0.
    unfold encoded, update_all, reencode in H0; cbn [foldl] in H0. unfold bind. by rewrite H0. }
  apply Forall_cons in Hbefore as [H1 Hbefore].
  pose proof (Hstep "ex_date"%string [] H1) as E1.
  unfold encoded, update_all, reencode in E1; cbn [foldl] in E1.
  destruct before as [|c2 before]; injection Hdates as <- Hdates.
  { pose proof (Hfail ["ex_date"%string]) as H0.
    unfold encoded, update_all, reencode in H0; cbn [foldl] in H0.
    unfold bind. rewrite E1. cbv beta iota. by rewrite H0. }
  apply Forall_cons in Hbefore as [H2 Hbefore].
  pose proof (Hstep "record_date"%string ["ex_date"%string] H2) as E2.
  unfold encoded, update_all, reencode in E2; cbn [foldl] in E2.
  destruct before as [|c3 before]; injection Hdates as <- Hdates.
  { pose proof (Hfail ["ex_date"; "record_date"]%string) as H0.
    unfold encoded, update_all, reencode in H0; cbn [foldl] in H0.
    unfold bind. rewrite E1. cbv beta iota. rewrite E2. cbv beta iota.
    by rewrite H0. }
  apply Forall_cons in Hbefore as [H3 Hbefore].
  pose proof (Hstep "declared_date"%string
                ["ex_date"; "record_date"]%string H3) as E3.
  unfold encoded, update_all, reencode in E3; cbn [foldl] in E3.
  destruct before as [|c4 before]; injection Hdates as <- Hdates.
  { pose proof (Hfail ["ex_date"; "record_date"; "declared_date"]%string)
      as H0.
    unfold encoded, update_all, reencode in H0; cbn [foldl] in H0.
    unfold bind. rewrite E1. cbv beta iota. rewrite E2. cbv beta iota.
    rewrite E3. cbv beta iota. by rewrite H0. }
  by destruct before.
Qed.

Lemma _write_dividends_KeyError_witness :
  _write_dividends (Some []) example.fresh
  = (Raise (KeyError "ex_date"), example.fresh)
  ∧ ∃ s', _write_dividends None example.fresh = (Ok tt, s').
Proof.
  split.
  - apply (_write_dividends_KeyError [] [] "ex_date"%string
             ["record_date"; "declared_date"; "pay_date"]%string
             example.fresh); [reflexivity|apply Forall_nil_2|reflexivity].
  - eexists. vm_compute. reflexivity.
Defined.

(** ** Exceptions in [calc_dividend_ratios] *)

Section raise.

Variable self : SQLiteAdjustmentWriter.





End raise.








(** ** Rows that are dropped without a warning *)





(** ** Where the ex-date falls in the calendar *)













(** ** [get_adjustments_for_sid] *)

Lemma adjustments_for_sid_zip sid (sids dates : list Z) (rs : list float64) :
  map (λ row : Z * float64 * Z, (row.1.1, row.1.2))
    (filter (λ row, row.2 = sid) (zip (zip dates rs) sids))
  = adjustments_of sid (zip (zip sids dates) rs).
Proof.
  unfold adjustments_of. revert dates rs.
  induction sids as [|x sids IH]; intros [|d dates] [|r rs]; try done.
  cbn [zip zip_with]. rewrite !filter_cons. cbn [fst snd].
  destruct (decide (x = sid)); cbn [map]; by rewrite IH.
Qed.

Lemma adjustments_for_sid_rows table_name sid table conn :
  conn !! table_name = Some table →
  conforms SQLITE_ADJUSTMENT_COLUMN_DTYPES table →
  query.adjustments_for_sid table_name sid conn
  = Ok (adjustments_of sid (adjustment_rows table)).
Proof.
  intros Htable [_ Hdtypes].
  apply Forall_cons in Hdtypes as [Hdate Hdtypes].
  apply Forall_cons in Hdtypes as [Hratio Hdtypes].
  apply Forall_cons in Hdtypes as [Hsid _].
  cbn [fst snd] in *.
  apply column_dtype_int in Hdate as [dates Hdate].
  apply column_dtype_float in Hratio as [rs Hratio].
  apply column_dtype_int in Hsid as [sids Hsid].
  unfold query.adjustments_for_sid, query.from, query.integers,
    query.reals, adjustment_rows.
  rewrite Htable. cbn [query.and_then].
  rewrite Hdate, Hratio, Hsid. cbn [query.and_then].
  by rewrite adjustments_for_sid_zip.
Qed.

Lemma adjustments_of_rows rows out (s : Session) :
  for_each
    (λ out (adjustment : Z * float64),
       let* t := lift (Timestamp adjustment.1) in
       ret (out ++ [(t, adjustment.2)]))
    rows out s
  = match collect to_adjustment rows with
    | Ok new => (Ok (out ++ new), s)
    | Raise e => (Raise e, s)
    end.
Proof.
  revert out. induction rows as [|row rows IH]; intros out.
  - cbn. by rewrite app_nil_r.
  - cbn [for_each collect]. unfold to_adjustment at 1.
    unfold bind at 1. unfold bind at 1. unfold lift at 1.
    destruct (Timestamp row.1) as [t|e]; [|done].
    cbn [query.and_then]. unfold ret at 1. rewrite IH.
    destruct (collect _ rows) as [new|e]; [|done].
    cbn [query.and_then]. by rewrite <- (assoc_L (++)).
Qed.

(** [get_adjustments_for_sid] in one piece. *)
Lemma get_adjustments_for_sid_run table_name sid s :
  get_adjustments_for_sid table_name sid s
  = match query.adjustments_for_sid table_name sid (db s) with
    | Raise e => (Raise e, opened s)
    | Ok rows =>
        match collect to_adjustment rows with
        | Ok adjustments => (Ok adjustments, closed s)
        | Raise e => (Raise e, closed s)
        end
    end.
Proof.
  unfold get_adjustments_for_sid.
  unfold bind at 1. unfold cursor at 1.
  change {| db := db s; cursors := {[issued s]} ∪ cursors s;
            issued := Datatypes.S (issued s) |} with (opened s).
  unfold bind at 1. unfold execute_fetchall at 1.
  rewrite bool_decide_eq_true_2 by apply issued_in_opened.
  change (db (opened s)) with (db s).
  destruct (query.adjustments_for_sid table_name sid (db s)) as [rows|e];
    [|done].
  unfold bind at 1. unfold close, modify.
  change {| db := db (opened s);
            cursors := cursors (opened s) ∖ {[issued s]};
            issued := issued (opened s) |} with (closed s).
  by rewrite adjustments_of_rows.
Qed.

Lemma Timestamp_Ok seconds :
  in_bounds seconds → Timestamp seconds = Ok (seconds * 1000000000).
Proof.
  intros [Hlo Hhi]. unfold Timestamp.
  by rewrite (proj2 (andb_true_iff _ _)) by (split; apply Z.ltb_lt; lia).
Qed.


Lemma collect_to_adjustment rows :
  Forall (λ adjustment : Z * float64, in_bounds adjustment.1) rows →
  collect to_adjustment rows
  = Ok (map (λ adjustment, (adjustment.1 * 1000000000, adjustment.2)) rows).
Proof.
  induction 1 as [|row rows Hrow _ IH]; [done|].
  cbn [collect map]. unfold to_adjustment at 1.
  rewrite (Timestamp_Ok _ Hrow). cbn [query.and_then]. by rewrite IH.
Qed.




Lemma adjustments_of_map sid (f : Z → Z) (rows : list (Z * Z * float64)) :
  map (λ adjustment : Z * float64,
         (adjustment.1 * 1000000000, adjustment.2))
    (adjustments_of sid (map (λ r, (r.1.1, f r.1.2, r.2)) rows))
  = map (λ r, (f r.1.2 * 1000000000, r.2))
      (filter (λ r, r.1.1 = sid) rows).
Proof.
  unfold adjustments_of.
  induction rows as [|r rows IH]; [done|].
  cbn [map]. rewrite !filter_cons. cbn [fst snd].
  destruct (decide (r.1.1 = sid)); cbn [map fst snd]; by rewrite IH.
Qed.

(** A batch of splits, mergers or dividends written by [write_frame]
    into a store without the table is what [get_adjustments_for_sid]
    reads back for each sid: the rows of the sid in the order of the
    batch, each effective date as the instant of its whole seconds. *)
Theorem write_frame_get_adjustments_for_sid tablename frame k xs s :
  tablename ∈ SQLITE_ADJUSTMENT_TABLENAMES →
  valid_batch tablename ["effective_date"]%string frame →
  pd.get "effective_date" frame = Some (IntArray k xs) →
  Forall (λ x, in_bounds (to_seconds k x)) xs →
  conn s !! tablename = None →
  ∃ s',
    write_frame tablename (Some frame) s = (Ok tt, s')
    ∧ ∀ sess sid,
        db sess = conn s' →
        get_adjustments_for_sid tablename sid sess
        = (Ok (map (λ r, (to_seconds k r.1.2 * 1000000000, r.2))
                 (filter (λ r, r.1.1 = sid) (adjustment_rows frame))),
           closed sess).
Proof.
  intros Hname Hvalid Hdates Hbounds Hnone.
  assert (Hin : (tablename, ["effective_date"]%string) ∈ _datetime_int_cols).
  { unfold SQLITE_ADJUSTMENT_TABLENAMES in Hname.
    repeat (apply elem_of_cons in Hname as [->|Hname]);
      try (by apply elem_of_nil in Hname); decide_closed. }
  assert (Hwrite_batch : write_batch tablename (Some frame) s
                         = write_frame tablename (Some frame) s).
  { unfold SQLITE_ADJUSTMENT_TABLENAMES in Hname.
    repeat (apply elem_of_cons in Hname as [->|Hname]);
      try (by apply elem_of_nil in Hname); reflexivity. }
  assert (Hdeclared : declared_dtypes tablename
                      = SQLITE_ADJUSTMENT_COLUMN_DTYPES).
  { unfold declared_dtypes. by rewrite bool_decide_eq_true_2. }
  destruct (write_batch_encoded _ _ _ s Hin Hvalid)
    as (cols & Hnodup & Hsame & Hwrite).
  destruct (valid_batch_encoded _ _ _ _ Hin Hvalid Hnodup Hsame)
    as [Hne Hconf].
  set (table := encoded cols frame) in *.
  assert (Hstored : dates_as ["effective_date"]%string int64 to_seconds
                      frame table).
  { split; [apply encoded_columns|]. split.
    - intros col Hcol. apply encoded_get_other. by rewrite Hsame.
    - intros col k' xs' Hcol Hget. unfold table.
      rewrite encoded_get by (done || by apply Hsame). by rewrite Hget. }
  assert (Hrows : adjustment_rows table
                  = map (λ r, (r.1.1, to_seconds k r.1.2, r.2))
                      (adjustment_rows frame)).
  { apply (dates_as_adjustment_rows _ _ to_seconds _ _ _ xs Hstored);
      [decide_closed|decide_closed|decide_closed|done]. }
  eexists. split.
  { rewrite <- Hwrite_batch, Hwrite, _write_conforming by done.
    by apply to_sql_create. }
  intros sess sid Hdb.
  assert (Htable : db sess !! tablename = Some table)
    by (rewrite Hdb; cbn; by rewrite lookup_insert_eq).
  rewrite Hdeclared in Hconf.
  rewrite get_adjustments_for_sid_run.
  rewrite (adjustments_for_sid_rows _ _ _ _ Htable Hconf).
  rewrite Hrows.
  rewrite collect_to_adjustment.
  - by rewrite adjustments_of_map.
  - unfold adjustments_of. apply Forall_map. apply Forall_forall. intros r Hr. cbn [fst].
    apply list_elem_of_filter in Hr as [_ Hr].
    apply list_elem_of_fmap in Hr as (r0 & -> & Hr0). cbn [fst snd].
    rewrite Forall_forall in Hbounds. apply Hbounds.
    unfold adjustment_rows in Hr0. rewrite Hdates in Hr0.
    destruct (pd.get "sid" frame) as [[ks sids|]|]; try by apply elem_of_nil in Hr0.
    destruct (pd.get "ratio" frame) as [[|rs]|]; try by apply elem_of_nil in Hr0.
    apply list_elem_of_lookup in Hr0 as [i Hi].
    apply lookup_zip_with_Some in Hi as (p & r' & -> & Hp & _).
    apply lookup_zip_with_Some in Hp as (x & d & -> & _ & Hd).
    cbn. by eapply list_elem_of_lookup_2.
Qed.

Lemma write_frame_get_adjustments_for_sid_witness :
  ∃ s',
    write_frame "splits" (Some example.splits) example.fresh = (Ok tt, s')
    ∧ get_adjustments_for_sid "splits" 42
        {| db := conn s'; cursors := ∅; issued := 0 |}
      = (Ok [(1583020800000000000, example.half)],
         closed {| db := conn s'; cursors := ∅; issued := 0 |}).
Proof.
  destruct (write_frame_get_adjustments_for_sid "splits" example.splits
              datetime64_ns [1583020800500000000] example.fresh)
    as (s' & Hwrite & Hread).
  - decide_closed.
  - split; [reflexivity|]. split; [by vm_compute|]. split.
    + apply Forall_cons_2; [left; decide_closed|].
      apply Forall_cons_2; [by right|].
      apply Forall_cons_2; [by right|]. apply Forall_nil_2.
    + apply Forall_cons_2; [by eexists _, _|]. apply Forall_nil_2.
  - reflexivity.
  - apply Forall_cons_2; [by vm_compute|apply Forall_nil_2].
  - reflexivity.
  - exists s'. split; [exact Hwrite|].
    exact (Hread {| db := conn s'; cursors := ∅; issued := 0 |} 42 eq_refl).
Defined.

(** ** [get_stock_dividends_with_ex_date] *)

Lemma UNPAID_STOCK_DIVIDEND_QUERY_unpaid seconds chunk conn :
  query.UNPAID_STOCK_DIVIDEND_QUERY seconds chunk conn
  = query.and_then (stock_dividend_payouts conn)
      (λ rows, Ok (unpaid_stock seconds chunk rows)).
Proof.
  unfold query.UNPAID_STOCK_DIVIDEND_QUERY, stock_dividend_payouts.
  destruct (query.from _ _) as [table|]; [|done]. cbn [query.and_then].
  destruct (query.integers table "sid"); [|done]. cbn [query.and_then].
  destruct (query.integers table "payment_sid"); [|done].
  cbn [query.and_then].
  destruct (query.reals table "ratio"); [|done]. cbn [query.and_then].
  destruct (query.integers table "pay_date"); [|done]. cbn [query.and_then].
  by destruct (query.integers table "ex_date").
Qed.

Section get_stock_dividends.

Context {Asset : Type}.
Variable retrieve_asset : Z → result Asset.

(** The loop over the rows of one chunk. *)
Lemma stock_dividends_of_rows rows (divs : list (StockDividend Asset))
    (s : Session) :
  for_each
    (λ stock_divs row,
       let* a := lift (retrieve_asset row.1.1.1) in
       let* p := lift (retrieve_asset row.1.1.2) in
       let* t := lift (Timestamp row.2) in
       let stock_div := {| sd_asset := a; sd_payment_asset := p;
                           sd_ratio := row.1.2; sd_pay_date := t |} in
       ret (stock_divs ++ [stock_div]))
    rows divs s
  = match collect (to_stock_dividend retrieve_asset) rows with
    | Ok new => (Ok (divs ++ new), s)
    | Raise e => (Raise e, s)
    end.
Proof.
  revert divs. induction rows as [|row rows IH]; intros divs.
  - cbn. by rewrite app_nil_r.
  - cbn [for_each collect]. unfold to_stock_dividend at 1.
    unfold bind at 1. unfold bind at 1. unfold lift at 1.
    destruct (retrieve_asset row.1.1.1) as [a|e]; [|done].
    cbn [query.and_then]. unfold bind at 1. unfold lift at 1.
    destruct (retrieve_asset row.1.1.2) as [p|e]; [|done].
    cbn [query.and_then]. unfold bind at 1. unfold lift at 1.
    destruct (Timestamp row.2) as [t|e]; [|done].
    cbn [query.and_then]. unfold ret at 1. rewrite IH.
    destruct (collect _ rows) as [new|e]; [|done].
    cbn [query.and_then]. by rewrite <- (assoc_L (++)).
Qed.

(** The loop over the chunks, with the cursor open. *)
Lemma stock_dividends_of_chunks c seconds chunks rows
    (divs : list (StockDividend Asset)) (s : Session) :
  c ∈ cursors s →
  stock_dividend_payouts (db s) = Ok rows →
  for_each
    (λ stock_divs chunk,
       let* rows :=
         execute_fetchall c
           (query.UNPAID_STOCK_DIVIDEND_QUERY seconds chunk) in
       for_each
         (λ stock_divs row,
            let* a := lift (retrieve_asset row.1.1.1) in
            let* p := lift (retrieve_asset row.1.1.2) in
            let* t := lift (Timestamp row.2) in
            let stock_div := {| sd_asset := a; sd_payment_asset := p;
                                sd_ratio := row.1.2; sd_pay_date := t |} in
            ret (stock_divs ++ [stock_div]))
         rows stock_divs)
    chunks divs s
  = match collect (to_stock_dividend retrieve_asset)
            (chunks ≫= λ chunk, unpaid_stock seconds chunk rows) with
    | Ok new => (Ok (divs ++ new), s)
    | Raise e => (Raise e, s)
    end.
Proof.
  intros Hc Hrows. revert divs.
  induction chunks as [|chunk chunks IH]; intros divs.
  - cbn. by rewrite app_nil_r.
  - cbn [for_each]. rewrite bind_cons, collect_app.
    unfold bind at 1. unfold bind at 1. unfold execute_fetchall at 1.
    rewrite bool_decide_eq_true_2 by done.
    rewrite UNPAID_STOCK_DIVIDEND_QUERY_unpaid, Hrows.
    cbn [query.and_then].
    rewrite stock_dividends_of_rows.
    destruct (collect _ (unpaid_stock seconds chunk rows)) as [new|e];
      [|done].
    cbn [query.and_then]. rewrite IH.
    destruct (collect _ (chunks ≫= _)) as [new'|e]; [|done].
    cbn [query.and_then]. by rewrite <- (assoc_L (++)).
Qed.

(** [get_stock_dividends_with_ex_date] in one piece. *)
Lemma get_stock_dividends_with_ex_date_run chunk_size assets date s :
  get_stock_dividends_with_ex_date retrieve_asset chunk_size assets date s
  = match group_into_chunks chunk_size assets with
    | [] => (Ok [], closed s)
    | chunks =>
        match stock_dividend_payouts (db s) with
        | Raise e => (Raise e, opened s)
        | Ok rows =>
            match collect (to_stock_dividend retrieve_asset)
                    (chunks ≫= λ chunk,
                       unpaid_stock (date `div` 1000000000) chunk rows) with
            | Ok divs => (Ok divs, closed s)
            | Raise e => (Raise e, opened s)
            end
        end
    end.
Proof.
  unfold get_stock_dividends_with_ex_date.
  unfold bind at 1. unfold cursor at 1.
  change {| db := db s; cursors := {[issued s]} ∪ cursors s;
            issued := Datatypes.S (issued s) |} with (opened s).
  pose proof (issued_in_opened s) as Hc.
  destruct (group_into_chunks chunk_size assets) as [|chunk chunks];
    [done|].
  destruct (stock_dividend_payouts (db s)) as [rows|e] eqn:Hrows.
  - unfold bind at 1.
    rewrite (stock_dividends_of_chunks _ _ _ rows) by done.
    by destruct (collect _ _).
  - unfold bind at 1. cbn [for_each]. unfold bind at 1. unfold bind at 1.
    unfold execute_fetchall at 1. rewrite bool_decide_eq_true_2 by done.
    rewrite UNPAID_STOCK_DIVIDEND_QUERY_unpaid. cbn [opened db].
    by rewrite Hrows.
Qed.

End get_stock_dividends.






(** With no asset there is no chunk and no query: both ex-date calls
    return the empty list and close their cursor, whatever the store
    holds, a store without the payout tables included. *)
Theorem ex_date_queries_no_assets {Asset : Type}
    (retrieve_asset : Z → result Asset) chunk_size date s :
  get_dividends_with_ex_date retrieve_asset chunk_size [] date s
  = (Ok [], closed s)
  ∧ get_stock_dividends_with_ex_date retrieve_asset chunk_size [] date s
    = (Ok [], closed s).
Proof.
  rewrite get_dividends_with_ex_date_run,
    get_stock_dividends_with_ex_date_run.
  assert (Hnil : group_into_chunks chunk_size ([] : list Z) = []).
  { unfold group_into_chunks. cbn [length]. rewrite Nat.add_0_l.
    destruct chunk_size as [|n]; [done|].
    replace ((Datatypes.S n - 1) `div` Datatypes.S n)%nat with 0%nat;
      [done|].
    symmetry. apply Nat.div_small. lia. }
  by rewrite Hnil.
Qed.

(** ** The export of all tables *)



(** ** [write] *)

Lemma write_split self splits mergers dividends stock_dividends d :
  write self splits mergers dividends stock_dividends d
  = match write_tables self splits mergers dividends stock_dividends
            (store d) with
    | (Ok _, s') =>
        for_each (λ _ index, CREATE_INDEX index.1 index.2.1 index.2.2)
          INDEXES tt {| store := s'; indexes := indexes d |}
    | (Raise e, s') => (Raise e, {| store := s'; indexes := indexes d |})
    end.
Proof.
  unfold write, write_tables, INDEXES.
  cbn [for_each fst snd].
  unfold bind, on_store. cbn [store indexes fst snd].
  destruct (write_frame "splits" splits (store d)) as [[[]|e] s1];
    cbn [fst snd]; [|done].
  destruct (write_frame "mergers" mergers s1) as [[[]|e] s2];
    cbn [fst snd]; [|done].
  destruct (write_dividend_data self dividends stock_dividends s2)
    as [[[]|e] s3]; cbn [fst snd]; [|done].
  generalize {| store := s3; indexes := indexes d |}. intros d3.
  repeat (destruct (CREATE_INDEX _ _ _ _) as [[[]|?] ?]; [|done]).
  reflexivity.
Qed.

Lemma keeps_conn_ret {A} (a : A) : keeps_conn (ret a).
Proof. by intros s. Qed.

Lemma keeps_conn_lift {A} (r : result A) : keeps_conn (lift r).
Proof. by intros s. Qed.

Lemma keeps_conn_bind {A B} (m : M State A) (k : A → M State B) :
  keeps_conn m → (∀ a, keeps_conn (k a)) → keeps_conn (bind m k).
Proof.
  intros Hm Hk s. unfold bind. specialize (Hm s).
  destruct (m s) as [[a|e] s']; cbn in *; [|done].
  by rewrite Hk.
Qed.

Lemma keeps_conn_try_except {A} (body handler : M State A) catches :
  keeps_conn body → keeps_conn handler →
  keeps_conn (try_except body catches handler).
Proof.
  intros Hbody Hhandler s. unfold try_except. specialize (Hbody s).
  destruct (body s) as [[a|e] s']; cbn in *; [done|].
  destruct (catches e); [|done]. by rewrite Hhandler.
Qed.

Lemma keeps_conn_for_enumerate {A B} (body : B → nat → A → M State B)
    xs i acc :
  (∀ acc i x, keeps_conn (body acc i x)) →
  keeps_conn (for_enumerate body i xs acc).
Proof.
  intros Hbody. revert i acc.
  induction xs as [|x xs IH]; intros i acc.
  - apply keeps_conn_ret.
  - cbn [for_enumerate]. apply keeps_conn_bind; [apply Hbody|].
    intros acc'. apply IH.
Qed.

Lemma keeps_conn_body self sids ex_dates day_locs vars i amount :
  keeps_conn
    (calc_dividend_ratios_body self sids ex_dates day_locs vars i amount).
Proof.
  unfold calc_dividend_ratios_body.
  repeat (apply keeps_conn_bind; [apply keeps_conn_lift|intros ?]).
  apply keeps_conn_try_except.
  - apply keeps_conn_bind; [by intros s|]. intros c.
    destruct (negb (isnull c)); apply keeps_conn_ret.
  - apply keeps_conn_bind; [by intros s|]. intros _. apply keeps_conn_ret.
Qed.

(** [calc_dividend_ratios] works on the bar reader and the log, never
    on the connection. *)
Lemma calc_dividend_ratios_keeps_conn self dividends :
  keeps_conn (calc_dividend_ratios self dividends).
Proof.
  unfold calc_dividend_ratios.
  destruct dividends as [frame|]; [|apply keeps_conn_ret].
  destruct (pd.empty frame); [apply keeps_conn_ret|].
  apply keeps_conn_bind; [apply keeps_conn_lift|intros ?].
  apply keeps_conn_bind; [apply keeps_conn_lift|intros [? ex_dates]].
  apply keeps_conn_bind; [apply keeps_conn_lift|intros ?].
  apply keeps_conn_bind; [apply keeps_conn_lift|intros [sid_kind sids]].
  apply keeps_conn_bind; [apply keeps_conn_lift|intros ?].
  apply keeps_conn_bind.
  { apply keeps_conn_for_enumerate. intros. apply keeps_conn_body. }
  intros vars.
  repeat (apply keeps_conn_bind; [apply keeps_conn_lift|intros ?]).
  apply keeps_conn_ret.
Qed.

Lemma insert_rows_columns table frame table' :
  sql.insert_rows table frame = Some table' →
  pd.columns table' = pd.columns table.
Proof.
  revert table'. induction table as [|[n stored] rest IH]; intros table'.
  - by intros [= <-].
  - cbn [sql.insert_rows].
    destruct (pd.get n frame) as [new|]; [|done]. cbn.
    destruct (sql.concat_values stored new) as [col|]; [|done]. cbn.
    destruct (sql.insert_rows rest frame) as [rest'|]; [|done]. cbn.
    intros [= <-]. unfold pd.columns in *. cbn. f_equal. by apply IH.
Qed.

(** After [to_sql] the table is there, with the columns of the frame
    among its own; the other tables are as before. *)
Lemma to_sql_Ok_table tablename frame s s' :
  to_sql tablename frame s = (Ok tt, s') →
  has_columns (conn s') tablename (pd.columns frame)
  ∧ ∀ other, other ≠ tablename → conn s' !! other = conn s !! other.
Proof.
  unfold to_sql, sql.to_sql, has_columns.
  destruct (conn s !! tablename) as [table|].
  - destruct (forallb _ _) eqn:Hcols; [|done].
    destruct (sql.insert_rows table frame) as [table'|] eqn:Hrows; [|done].
    intros [= <-]. cbn. split.
    + exists table'. rewrite lookup_insert_eq. split; [done|].
      intros col Hcol. rewrite (insert_rows_columns _ _ _ Hrows).
      rewrite forallb_forall in Hcols.
      apply list_elem_of_In, Hcols in Hcol.
      by apply bool_decide_eq_true in Hcol.
    + intros other Hne. by rewrite lookup_insert_ne.
  - intros [= <-]. cbn. split.
    + exists frame. by rewrite lookup_insert_eq.
    + intros other Hne. by rewrite lookup_insert_ne.
Qed.

Lemma _write_Ok_table tablename (expected_dtypes : list (string * dtype))
    frame s s' :
  NoDup expected_dtypes.*1 →
  _write tablename expected_dtypes frame s = (Ok tt, s') →
  has_columns (conn s') tablename expected_dtypes.*1
  ∧ ∀ other, other ≠ tablename → conn s' !! other = conn s !! other.
Proof.
  intros Hnodup Hrun.
  destruct (_write_Ok_conforms _ _ _ _ _ Hnodup Hrun)
    as (appended & [Hcols _] & Hsql).
  destruct (to_sql_Ok_table _ _ _ _ Hsql) as [(table & Htable & Hhas) Hother].
  split; [|done]. exists table. split; [done|].
  intros col Hcol. apply Hhas.
  unfold frozenset in Hcols.
  apply (elem_of_list_to_set (C := gset string)).
  rewrite Hcols. by apply elem_of_list_to_set.
Qed.

Lemma has_columns_other (c c' : Connection) tablename written cols :
  has_columns c tablename cols →
  (∀ other, other ≠ written → c' !! other = c !! other) →
  tablename ≠ written →
  has_columns c' tablename cols.
Proof.
  intros (table & Htable & Hcols) Hother Hne.
  exists table. by rewrite Hother.
Qed.

Lemma encode_date_cases col frame s :
  (∃ frame', encode_date col frame s = (Ok frame', s))
  ∨ ∃ e, encode_date col frame s = (Raise e, s).
Proof.
  unfold encode_date. destruct (pd.get col frame); [left|right]; by eexists.
Qed.

Lemma _write_dividends_Ok dividends s s' :
  _write_dividends dividends s = (Ok tt, s') →
  ∃ frame, write_dividend_payouts frame s = (Ok tt, s').
Proof.
  unfold _write_dividends. destruct dividends as [frame|].
  2:{ intros Hrun. by exists None. }
  unfold bind.
  destruct (encode_date_cases "ex_date" frame s) as [[f1 E]|[e E]];
    rewrite E; clear E; [|done].
  destruct (encode_date_cases "record_date" f1 s) as [[f2 E]|[e E]];
    rewrite E; clear E; [|done].
  destruct (encode_date_cases "declared_date" f2 s) as [[f3 E]|[e E]];
    rewrite E; clear E; [|done].
  destruct (encode_date_cases "pay_date" f3 s) as [[f4 E]|[e E]];
    rewrite E; clear E; [|done].
  intros Hrun. by exists (Some f4).
Qed.

Lemma _write_stock_dividends_Ok stock_dividends s s' :
  _write_stock_dividends stock_dividends s = (Ok tt, s') →
  ∃ frame, write_stock_dividend_payouts frame s = (Ok tt, s').
Proof.
  unfold _write_stock_dividends. destruct stock_dividends as [frame|].
  2:{ intros Hrun. by exists None. }
  unfold bind.
  destruct (encode_date_cases "ex_date" frame s) as [[f1 E]|[e E]];
    rewrite E; clear E; [|done].
  destruct (encode_date_cases "record_date" f1 s) as [[f2 E]|[e E]];
    rewrite E; clear E; [|done].
  destruct (encode_date_cases "declared_date" f2 s) as [[f3 E]|[e E]];
    rewrite E; clear E; [|done].
  destruct (encode_date_cases "pay_date" f3 s) as [[f4 E]|[e E]];
    rewrite E; clear E; [|done].
  intros Hrun. by exists (Some f4).
Qed.

(** A table write that returns leaves its table with the declared
    columns and the other tables as they were. *)
Lemma write_frame_Ok_table tablename frame s s' :
  write_frame tablename frame s = (Ok tt, s') →
  has_columns (conn s') tablename SQLITE_ADJUSTMENT_COLUMN_DTYPES.*1
  ∧ ∀ other, other ≠ tablename → conn s' !! other = conn s !! other.
Proof.
  intros (_ & frame' & Hrun)%write_frame_Ok.
  eapply _write_Ok_table; [|done]. decide_closed.
Qed.

Lemma _write_dividends_Ok_table dividends s s' :
  _write_dividends dividends s = (Ok tt, s') →
  has_columns (conn s') "dividend_payouts"
    SQLITE_DIVIDEND_PAYOUT_COLUMN_DTYPES.*1
  ∧ ∀ other, other ≠ "dividend_payouts"%string →
             conn s' !! other = conn s !! other.
Proof.
  intros Hrun. apply _write_dividends_Ok in Hrun as (frame & Hrun).
  eapply _write_Ok_table; [|done]. decide_closed.
Qed.

Lemma _write_stock_dividends_Ok_table stock_dividends s s' :
  _write_stock_dividends stock_dividends s = (Ok tt, s') →
  has_columns (conn s') "stock_dividend_payouts"
    SQLITE_STOCK_DIVIDEND_PAYOUT_COLUMN_DTYPES.*1
  ∧ ∀ other, other ≠ "stock_dividend_payouts"%string →
             conn s' !! other = conn s !! other.
Proof.
  intros Hrun. apply _write_stock_dividends_Ok in Hrun as (frame & Hrun).
  eapply _write_Ok_table; [|done]. decide_closed.
Qed.

(** The five tables after the table writes of [write]. *)
Lemma write_tables_Ok self splits mergers dividends stock_dividends s s' :
  write_tables self splits mergers dividends stock_dividends s
  = (Ok tt, s') →
  has_columns (conn s') "splits" SQLITE_ADJUSTMENT_COLUMN_DTYPES.*1
  ∧ has_columns (conn s') "mergers" SQLITE_ADJUSTMENT_COLUMN_DTYPES.*1
  ∧ has_columns (conn s') "dividends" SQLITE_ADJUSTMENT_COLUMN_DTYPES.*1
  ∧ has_columns (conn s') "dividend_payouts"
      SQLITE_DIVIDEND_PAYOUT_COLUMN_DTYPES.*1
  ∧ has_columns (conn s') "stock_dividend_payouts"
      SQLITE_STOCK_DIVIDEND_PAYOUT_COLUMN_DTYPES.*1
  ∧ ∀ other,
      other ∉ _datetime_int_cols.*1 → conn s' !! other = conn s !! other.
Proof.
  unfold write_tables, write_dividend_data, bind.
  destruct (write_frame "splits" splits s) as [[[]|e] s1] eqn:H1; [|done].
  destruct (write_frame "mergers" mergers s1) as [[[]|e] s2] eqn:H2;
    [|done].
  destruct (_write_dividends dividends s2) as [[[]|e] s3] eqn:H3; [|done].
  destruct (_write_stock_dividends stock_dividends s3)
    as [[[]|e] s4] eqn:H4; [|done].
  pose proof (calc_dividend_ratios_keeps_conn self dividends s4) as H5.
  destruct (calc_dividend_ratios self dividends s4) as [[ratios|e] s5];
    [|done].
  cbn [snd] in H5. intros H6.
  apply write_frame_Ok_table in H1 as [T1 O1].
  apply write_frame_Ok_table in H2 as [T2 O2].
  apply _write_dividends_Ok_table in H3 as [T3 O3].
  apply _write_stock_dividends_Ok_table in H4 as [T4 O4].
  apply write_frame_Ok_table in H6 as [T6 O6].
  rewrite H5 in O6.
  assert (O64 : ∀ other, other ≠ "dividends"%string →
                         conn s' !! other = conn s4 !! other) by done.
  repeat split.
  - eapply has_columns_other; [|exact O64|done].
    eapply has_columns_other; [|exact O4|done].
    eapply has_columns_other; [|exact O3|done].
    eapply has_columns_other; [|exact O2|done]. done.
  - eapply has_columns_other; [|exact O64|done].
    eapply has_columns_other; [|exact O4|done].
    eapply has_columns_other; [|exact O3|done]. done.
  - done.
  - eapply has_columns_other; [|exact O64|done].
    eapply has_columns_other; [|exact O4|done]. done.
  - eapply has_columns_other; [|exact O64|done]. done.
  - intros other Hother.
    assert (Hne : other ≠ "splits"%string ∧ other ≠ "mergers"%string
                  ∧ other ≠ "dividends"%string
                  ∧ other ≠ "dividend_payouts"%string
                  ∧ other ≠ "stock_dividend_payouts"%string).
    { repeat split; intros ->; apply Hother; decide_closed. }
    destruct Hne as (N1 & N2 & N3 & N4 & N5).
    rewrite O64, O4, O3, O2, O1 by done. done.
Qed.

Lemma CREATE_INDEX_Ok name table column d :
  has_columns (conn (store d)) table [column] →
  indexes d !! name = None →
  conn (store d) !! name = None →
  CREATE_INDEX name table column d
  = (Ok tt, {| store := store d;
               indexes := <[name := (table, column)]> (indexes d) |}).
Proof.
  intros (t & Htable & Hcols) Hindex Hname. unfold CREATE_INDEX.
  rewrite Htable, Hindex, Hname.
  rewrite bool_decide_eq_false_2
    by (intros [[? ?]|[? ?]]; discriminate).
  rewrite bool_decide_eq_true_2; [done|].
  apply Hcols, list_elem_of_singleton. done.
Qed.

Lemma CREATE_INDEX_taken name table column d :
  is_Some (conn (store d) !! table) →
  is_Some (indexes d !! name) →
  CREATE_INDEX name table column d = (Raise (OperationalError name), d).
Proof.
  intros [t Htable] Hindex. unfold CREATE_INDEX. rewrite Htable.
  by rewrite bool_decide_eq_true_2 by (by left).
Qed.

Lemma CREATE_INDEX_cases name table column d :
  (∃ e, CREATE_INDEX name table column d = (Raise e, d))
  ∨ (CREATE_INDEX name table column d
     = (Ok tt, {| store := store d;
                  indexes := <[name := (table, column)]> (indexes d) |})
     ∧ indexes d !! name = None).
Proof.
  unfold CREATE_INDEX.
  destruct (conn (store d) !! table) as [t|]; [|left; by eexists].
  case_bool_decide as Htaken; [left; by eexists|].
  case_bool_decide; [|left; by eexists].
  right. split; [done|].
  destruct (indexes d !! name) eqn:Hname; [|done].
  destruct Htaken. left. by eexists.
Qed.

(** The indexes are built one after the other, on free names and on
    columns that exist. *)
Lemma create_indexes_Ok (l : list (string * (string * string))) :
  ∀ d,
    NoDup l.*1 →
    Forall (λ index, indexes d !! index.1 = None
                     ∧ conn (store d) !! index.1 = None) l →
    Forall (λ index, has_columns (conn (store d)) index.2.1 [index.2.2])
      l →
    for_each (λ _ index, CREATE_INDEX index.1 index.2.1 index.2.2) l tt d
    = (Ok tt, {| store := store d;
                 indexes := list_to_map l ∪ indexes d |}).
Proof.
  induction l as [|[name [table column]] l IH];
    intros d Hnodup Hfree Hcols.
  - cbn. rewrite (left_id_L ∅ (∪)). by destruct d.
  - cbn [fmap list_fmap fst] in Hnodup.
    apply NoDup_cons in Hnodup as [Hname Hnodup].
    apply Forall_cons in Hfree as [[Hindex Htable] Hfree].
    apply Forall_cons in Hcols as [Hcol Hcols].
    cbn [fst snd] in *. cbn [for_each fst snd]. unfold bind.
    rewrite (CREATE_INDEX_Ok _ _ _ _ Hcol Hindex Htable).
    rewrite IH; cbn [store indexes]; try done.
    + do 2 f_equal. cbn [list_to_map foldr fst snd].
      rewrite <- insert_union_l. symmetry.
      apply insert_union_r.
      by apply not_elem_of_list_to_map_1.
    + rewrite Forall_forall in Hfree. apply Forall_forall.
      intros index Hin. destruct (Hfree index Hin) as [Hi Ht].
      split; [|done]. rewrite lookup_insert_ne; [done|].
      intros ->. apply Hname. apply list_elem_of_fmap. by exists index.
Qed.

Lemma has_columns_among (c : Connection) tablename cols cols' :
  has_columns c tablename cols →
  Forall (λ col, col ∈ cols) cols' →
  has_columns c tablename cols'.
Proof.
  intros (table & Htable & Hcols) Hsub. exists table.
  split; [done|]. intros col Hcol. apply Hcols.
  rewrite Forall_forall in Hsub. by apply Hsub.
Qed.

(** On a connection where the names of the ten indexes are free,
    [write] returns when its table writes return, with the five tables
    written and the ten indexes built; an exception of a table write
    leaves [write] before any index is built. *)
Theorem write_builds_indexes
    self splits mergers dividends stock_dividends d :
  Forall (λ name, indexes d !! name = None
                  ∧ conn (store d) !! name = None) INDEXES.*1 →
  write self splits mergers dividends stock_dividends d
  = match write_tables self splits mergers dividends stock_dividends
            (store d) with
    | (Ok _, s') =>
        (Ok tt, {| store := s';
                   indexes := list_to_map INDEXES ∪ indexes d |})
    | (Raise e, s') => (Raise e, {| store := s'; indexes := indexes d |})
    end.
Proof.
  intros Hfree. rewrite write_split.
  destruct (write_tables _ _ _ _ _ (store d)) as [[[]|e] s'] eqn:Htables;
    [|done].
  apply write_tables_Ok in Htables
    as (Hsplits & Hmergers & Hdividends & Hpayouts & Hstock & Hother).
  rewrite create_indexes_Ok; cbn [store indexes]; [done|decide_closed|..].
  - assert (Hix : Forall (λ index : string * (string * string),
                            index.1 ∉ _datetime_int_cols.*1) INDEXES)
      by decide_closed.
    rewrite Forall_fmap in Hfree.
    rewrite Forall_forall in Hfree, Hix. apply Forall_forall.
    intros index Hin. destruct (Hfree index Hin) as [Hindex Hname].
    cbn in Hindex, Hname. split; [done|].
    rewrite Hother; [done|]. by apply Hix.
  - unfold INDEXES.
    repeat apply Forall_cons_2; try apply Forall_nil_2; cbn [fst snd];
      (eapply has_columns_among; [eassumption|decide_closed]).
Qed.

Lemma write_builds_indexes_witness :
  ∃ s',
    write example.writer None None None None new_database
    = (Ok tt, {| store := s'; indexes := list_to_map INDEXES |})
    ∧ Forall (λ item, conn s' !! item.1
                      = Some (pd.empty_frame (declared_dtypes item.1)))
        _datetime_int_cols.
Proof.
  pose proof (write_builds_indexes example.writer None None None None
                new_database) as Hwrite.
  assert (Htables :
    write_tables example.writer None None None None (store new_database)
    = (Ok tt,
       (write_tables example.writer None None None None
          (store new_database)).2)) by reflexivity.
  rewrite Htables in Hwrite.
  eexists. split.
  - rewrite Hwrite by decide_closed.
    change (indexes new_database) with (∅ : gmap string (string * string)).
    by rewrite (right_id_L ∅ (∪)).
  - repeat apply Forall_cons_2; try apply Forall_nil_2; reflexivity.
Defined.

Lemma create_indexes_Raise (l : list (string * (string * string))) :
  ∀ d e d',
    for_each (λ _ index, CREATE_INDEX index.1 index.2.1 index.2.2) l tt d
    = (Raise e, d') →
    store d' = store d
    ∧ ∀ name, is_Some (indexes d !! name) → is_Some (indexes d' !! name).
Proof.
  induction l as [|[name [table column]] l IH]; intros d e d'; [done|].
  cbn [for_each fst snd]. unfold bind.
  destruct (CREATE_INDEX_cases name table column d) as [[e' E]|[E Hfree]];
    rewrite E; clear E.
  - by intros [= _ <-].
  - intros Hrun. apply IH in Hrun as [Hstore Hkept]. cbn in *.
    split; [done|]. intros other Hother. apply Hkept.
    destruct (decide (name = other)) as [->|Hne].
    + by rewrite lookup_insert_eq.
    + by rewrite lookup_insert_ne.
Qed.

Lemma create_indexes_built (l : list (string * (string * string))) :
  ∀ d d',
    for_each (λ _ index, CREATE_INDEX index.1 index.2.1 index.2.2) l tt d
    = (Ok tt, d') →
    store d' = store d
    ∧ ∀ name, is_Some (indexes d !! name) ∨ name ∈ l.*1 →
              is_Some (indexes d' !! name).
Proof.
  induction l as [|[name [table column]] l IH]; intros d d'.
  - intros [= <-]. split; [done|]. intros other [Hother|Hin]; [done|].
    by apply elem_of_nil in Hin.
  - cbn [for_each fst snd]. unfold bind.
    destruct (CREATE_INDEX_cases name table column d)
      as [[e' E]|[E Hfree]]; rewrite E; clear E; [done|].
    intros Hrun. apply IH in Hrun as [Hstore Hkept]. cbn in *.
    split; [done|]. intros other Hother. apply Hkept.
    destruct (decide (name = other)) as [->|Hne].
    + left. by rewrite lookup_insert_eq.
    + rewrite lookup_insert_ne by done.
      destruct Hother as [Hother|Hin]; [by left|right].
      apply elem_of_cons in Hin as [->|Hin]; done.
Qed.

(** [write] builds its indexes without IF NOT EXISTS, so it returns at
    most once per connection: after a [write] that returned, every
    further [write] raises. Its table writes come first, so the rows of
    the second call are appended before CREATE INDEX raises sqlite's
    error for the first index, and no index is added or lost. *)
Theorem write_once self splits mergers dividends stock_dividends d d1 :
  write self splits mergers dividends stock_dividends d = (Ok tt, d1) →
  ∀ self' splits' mergers' dividends' stock_dividends',
    let tables :=
      write_tables self' splits' mergers' dividends' stock_dividends'
        (store d1) in
    ∃ e,
      write self' splits' mergers' dividends' stock_dividends' d1
      = (Raise e, {| store := tables.2; indexes := indexes d1 |})
      ∧ (tables.1 = Ok tt → e = OperationalError "splits_sids").
Proof.
  intros Hfirst self' splits' mergers' dividends' stock_dividends' tables.
  subst tables.
  assert (Hbuilt : is_Some (indexes d1 !! "splits_sids"%string)).
  { rewrite write_split in Hfirst.
    destruct (write_tables _ _ _ _ _ (store d)) as [[[]|e] s']; [|done].
    apply create_indexes_built in Hfirst as [_ Hbuilt].
    apply Hbuilt. right. decide_closed. }
  rewrite write_split.
  destruct (write_tables _ _ _ _ _ (store d1)) as [[[]|e] s'] eqn:Htables.
  - apply write_tables_Ok in Htables as ((table & Hsplits & _) & _).
    exists (OperationalError "splits_sids"). split; [|done].
    unfold INDEXES. cbn [for_each fst snd]. unfold bind.
    rewrite CREATE_INDEX_taken; [done|by eexists|done].
  - exists e. by split.
Qed.

Lemma write_once_witness :
  ∃ d1 d2,
    write example.writer None None None None new_database = (Ok tt, d1)
    ∧ write example.writer (Some example.splits) None None None d1
      = (Raise (OperationalError "splits_sids"), d2)
    ∧ sql.row_count "splits" (conn (store d1)) = 0%nat
    ∧ sql.row_count "splits" (conn (store d2)) = 1%nat
    ∧ indexes d2 = indexes d1.
Proof.
  set (d1 := (write example.writer None None None None new_database).2).
  assert (Hfirst : write example.writer None None None None new_database
                   = (Ok tt, d1)) by (by vm_compute).
  destruct (write_once example.writer None None None None new_database d1
              Hfirst example.writer (Some example.splits) None None None)
    as (e & Hsecond & He).
  rewrite (He ltac:(by vm_compute)) in Hsecond.
  eexists d1, _. split; [exact Hfirst|]. split; [exact Hsecond|].
  split; [by vm_compute|]. split; [by vm_compute|]. reflexivity.
Defined.

(** ** Writing to a table that exists *)

Lemma get_elem_of_NoDup (frame : DataFrame) colname a :
  NoDup (pd.columns frame) → (colname, a) ∈ frame →
  pd.get colname frame = Some a.
Proof.
  unfold pd.columns.
  induction frame as [|[n b] frame IH]; intros Hnodup Hin.
  - by apply elem_of_nil in Hin.
  - cbn [fmap list_fmap fst] in Hnodup.
    apply NoDup_cons in Hnodup as [Hn Hnodup].
    cbn [pd.get]. apply elem_of_cons in Hin as [[= -> ->]|Hin].
    + by rewrite bool_decide_eq_true_2.
    + rewrite bool_decide_eq_false_2; [by apply IH|].
      intros ->. apply Hn. apply list_elem_of_fmap. by exists (colname, a).
Qed.

Lemma insert_rows_is_Some table frame :
  Forall (λ c, ∃ new, pd.get c.1 frame = Some new
                      ∧ is_Some (sql.concat_values c.2 new)) table →
  is_Some (sql.insert_rows table frame).
Proof.
  induction 1 as [|[n stored] table (new & Hnew & [col Hcol]) _ [rest IH]];
    [by eexists|].
  cbn [sql.insert_rows fst snd] in *. rewrite Hnew. cbn.
  rewrite Hcol. cbn. rewrite IH. cbn. by eexists.
Qed.

Lemma insert_rows_get table frame table' colname stored :
  sql.insert_rows table frame = Some table' →
  pd.get colname table = Some stored →
  ∃ new col,
    pd.get colname frame = Some new
    ∧ sql.concat_values stored new = Some col
    ∧ pd.get colname table' = Some col.
Proof.
  revert table'. induction table as [|[n a] table IH]; intros table';
    [done|].
  cbn [sql.insert_rows pd.get].
  destruct (pd.get n frame) as [new|] eqn:Hnew; [|done]. cbn.
  destruct (sql.concat_values a new) as [col|] eqn:Hcol; [|done]. cbn.
  destruct (sql.insert_rows table frame) as [rest|]; [|done]. cbn.
  intros [= <-]. cbn [pd.get]. case_bool_decide as Hn.
  - subst n. intros [= <-]. by exists new, col.
  - intros Hget. by apply IH.
Qed.

Lemma conforms_elem (dts : list (string * dtype)) frame colname :
  conforms dts frame →
  colname ∈ pd.columns frame →
  ∃ dt, (colname, dt) ∈ dts ∧ column_dtype frame colname = Some dt.
Proof.
  intros [Hcols Hdtypes] Hin.
  assert (Hdeclared : colname ∈ dts.*1).
  { apply (elem_of_list_to_set (C := gset string)).
    unfold frozenset in Hcols. rewrite <- Hcols.
    by apply elem_of_list_to_set. }
  apply list_elem_of_fmap in Hdeclared as ([c dt] & -> & Hitem).
  exists dt. split; [done|].
  rewrite Forall_forall in Hdtypes. by apply (Hdtypes (c, dt)).
Qed.

Lemma concat_values_same_dtype stored new :
  dtype_of stored = dtype_of new →
  is_Some (sql.concat_values stored new).
Proof.
  destruct stored, new; cbn; intros Heq; try discriminate; by eexists.
Qed.

(** A batch of the declared columns and dtypes fits a table of the
    declared columns and dtypes. *)
Lemma to_sql_append tablename (dts : list (string * dtype))
    table frame s :
  NoDup dts.*1 →
  conn s !! tablename = Some table →
  NoDup (pd.columns table) →
  conforms dts table →
  conforms dts frame →
  ∃ table',
    to_sql tablename frame s
    = (Ok tt, with_conn (<[tablename := table']> (conn s)) s)
    ∧ sql.insert_rows table frame = Some table'.
Proof.
  intros Hdts Htable Hnodup Hconf_table Hconf_frame.
  assert (Hrows : is_Some (sql.insert_rows table frame)).
  { apply insert_rows_is_Some. apply Forall_forall.
    intros [n stored] Hin. cbn [fst snd].
    pose proof (get_elem_of_NoDup _ _ _ Hnodup Hin) as Hstored.
    destruct (conforms_elem dts table n Hconf_table) as (dt & Hdt & Hcol).
    { apply list_elem_of_fmap. by exists (n, stored). }
    destruct Hconf_frame as [_ Hdtypes].
    rewrite Forall_forall in Hdtypes.
    pose proof (Hdtypes (n, dt) Hdt) as Hnew. cbn [fst snd] in Hnew.
    unfold column_dtype in Hcol, Hnew. rewrite Hstored in Hcol.
    destruct (pd.get n frame) as [new|]; [|done].
    exists new. split; [done|].
    apply concat_values_same_dtype. cbn in Hcol, Hnew. congruence. }
  destruct Hrows as [table' Hrows]. exists table'. split; [|done].
  unfold to_sql, sql.to_sql. rewrite Htable.
  assert (Hsub : forallb (λ n, bool_decide (n ∈ pd.columns table))
                   (pd.columns frame) = true).
  { apply forallb_forall. intros n Hn%list_elem_of_In.
    apply bool_decide_eq_true.
    destruct Hconf_table as [Ht _], Hconf_frame as [Hf _].
    unfold frozenset in Ht, Hf.
    apply (elem_of_list_to_set (C := gset string)). rewrite Ht, <- Hf.
    by apply elem_of_list_to_set. }
  by rewrite Hsub, Hrows.
Qed.

Lemma zip3_app {A B C} (xs xs' : list A) (ys ys' : list B)
    (zs zs' : list C) :
  length xs = length ys → length ys = length zs →
  zip (zip (xs ++ xs') (ys ++ ys')) (zs ++ zs')
  = zip (zip xs ys) zs ++ zip (zip xs' ys') zs'.
Proof.
  intros Hxy Hyz.
  rewrite (zip_with_app _ xs xs' ys ys' Hxy).
  rewrite zip_with_app; [done|].
  rewrite length_zip_with. lia.
Qed.

Lemma adjustment_rows_append table frame table' :
  conforms SQLITE_ADJUSTMENT_COLUMN_DTYPES table →
  pd.well_formed table →
  sql.insert_rows table frame = Some table' →
  adjustment_rows table' = adjustment_rows table ++ adjustment_rows frame.
Proof.
  intros [_ Hdtypes] Hwf Hrows.
  apply Forall_cons in Hdtypes as [Hdate Hdtypes].
  apply Forall_cons in Hdtypes as [Hratio Hdtypes].
  apply Forall_cons in Hdtypes as [Hsid _].
  cbn [fst snd] in *.
  apply column_dtype_int in Hdate as [dates Hdate].
  apply column_dtype_float in Hratio as [rs Hratio].
  apply column_dtype_int in Hsid as [sids Hsid].
  pose proof (get_len _ _ _ Hwf Hdate) as Ldate.
  pose proof (get_len _ _ _ Hwf Hratio) as Lratio.
  pose proof (get_len _ _ _ Hwf Hsid) as Lsid.
  cbn [len] in *.
  destruct (insert_rows_get _ _ _ _ _ Hrows Hdate)
    as (d & d' & Hd & Cd & Gd).
  destruct (insert_rows_get _ _ _ _ _ Hrows Hratio)
    as (r & r' & Hr & Cr & Gr).
  destruct (insert_rows_get _ _ _ _ _ Hrows Hsid)
    as (i & i' & Hi & Ci & Gi).
  unfold adjustment_rows. rewrite Hdate, Hratio, Hsid, Hd, Hr, Hi, Gd, Gr, Gi.
  destruct d as [kd ds|]; [|done]. destruct r as [|rs']; [done|].
  destruct i as [ki ss|]; [|done].
  cbn in Cd, Cr, Ci. injection Cd as <-. injection Cr as <-.
  injection Ci as <-.
  apply zip3_app; lia.
Qed.

(** [to_sql] is called with if_exists='append': a valid batch written by
    [write_frame] to a table the store has, in the writer's format, adds
    its rows after the table's, with the effective dates as whole
    seconds; nothing of the table is replaced. *)
Theorem write_frame_appends tablename table frame k xs s :
  tablename ∈ SQLITE_ADJUSTMENT_TABLENAMES →
  conn s !! tablename = Some table →
  conforms SQLITE_ADJUSTMENT_COLUMN_DTYPES table →
  NoDup (pd.columns table) →
  pd.well_formed table →
  valid_batch tablename ["effective_date"]%string frame →
  pd.get "effective_date" frame = Some (IntArray k xs) →
  ∃ s' table',
    write_frame tablename (Some frame) s = (Ok tt, s')
    ∧ conn s' !! tablename = Some table'
    ∧ adjustment_rows table'
      = adjustment_rows table
        ++ map (λ r, (r.1.1, to_seconds k r.1.2, r.2))
             (adjustment_rows frame)
    ∧ ∀ other, other ≠ tablename → conn s' !! other = conn s !! other.
Proof.
  intros Hname Htable Hconf_table Hnodup_table Hwf Hvalid Hdates.
  assert (Hin : (tablename, ["effective_date"]%string) ∈ _datetime_int_cols).
  { unfold SQLITE_ADJUSTMENT_TABLENAMES in Hname.
    repeat (apply elem_of_cons in Hname as [->|Hname]);
      try (by apply elem_of_nil in Hname); decide_closed. }
  assert (Hwrite_batch : write_batch tablename (Some frame) s
                         = write_frame tablename (Some frame) s).
  { unfold SQLITE_ADJUSTMENT_TABLENAMES in Hname.
    repeat (apply elem_of_cons in Hname as [->|Hname]);
      try (by apply elem_of_nil in Hname); reflexivity. }
  assert (Hdeclared : declared_dtypes tablename
                      = SQLITE_ADJUSTMENT_COLUMN_DTYPES).
  { unfold declared_dtypes. by rewrite bool_decide_eq_true_2. }
  destruct (write_batch_encoded _ _ _ s Hin Hvalid)
    as (cols & Hnodup & Hsame & Hwrite).
  destruct (valid_batch_encoded _ _ _ _ Hin Hvalid Hnodup Hsame)
    as [Hne Hconf].
  rewrite Hdeclared in Hconf, Hwrite.
  set (batch := encoded cols frame) in *.
  assert (Hstored : dates_as ["effective_date"]%string int64 to_seconds
                      frame batch).
  { split; [apply encoded_columns|]. split.
    - intros col Hcol. apply encoded_get_other. by rewrite Hsame.
    - intros col k' xs' Hcol Hget. unfold batch.
      rewrite encoded_get by (done || by apply Hsame). by rewrite Hget. }
  assert (Hrows : adjustment_rows batch
                  = map (λ r, (r.1.1, to_seconds k r.1.2, r.2))
                      (adjustment_rows frame)).
  { apply (dates_as_adjustment_rows _ _ to_seconds _ _ _ xs Hstored);
      [decide_closed|decide_closed|decide_closed|done]. }
  destruct (to_sql_append tablename SQLITE_ADJUSTMENT_COLUMN_DTYPES
              table batch s ltac:(decide_closed) Htable Hnodup_table
              Hconf_table Hconf) as (table' & Hsql & Hinsert).
  eexists _, table'. split.
  { rewrite <- Hwrite_batch, Hwrite, _write_conforming by done.
    exact Hsql. }
  cbn [conn with_conn]. rewrite lookup_insert_eq. split; [done|]. split.
  - rewrite (adjustment_rows_append _ _ _ Hconf_table Hwf Hinsert).
    by rewrite Hrows.
  - intros other Hother. by rewrite lookup_insert_ne.
Qed.

Lemma write_frame_appends_witness :
  ∃ s1 s2 table,
    write_frame "splits" (Some example.splits) example.fresh = (Ok tt, s1)
    ∧ write_frame "splits" (Some example.splits) s1 = (Ok tt, s2)
    ∧ conn s2 !! "splits"%string = Some table
    ∧ adjustment_rows table
      = [(42, 1583020800, example.half); (42, 1583020800, example.half)].
Proof.
  set (s1 := (write_frame "splits" (Some example.splits) example.fresh).2).
  destruct (write_frame_appends "splits"
              [ ("sid", IntArray int64 [42]);
                ("effective_date", IntArray int64 [1583020800]);
                ("ratio", FloatArray [example.half]) ]%string
              example.splits datetime64_ns [1583020800500000000] s1)
    as (s2 & table & Hwrite & Htable & Hrows & _).
  - decide_closed.
  - reflexivity.
  - apply conforms_adjustments.
  - decide_closed.
  - by repeat constructor.
  - split; [reflexivity|]. split; [by vm_compute|]. split.
    + apply Forall_cons_2; [left; decide_closed|].
      apply Forall_cons_2; [by right|].
      apply Forall_cons_2; [by right|]. apply Forall_nil_2.
    + apply Forall_cons_2; [by eexists _, _|]. apply Forall_nil_2.
  - reflexivity.
  - exists s1, s2, table. split; [reflexivity|].
    split; [exact Hwrite|]. split; [exact Htable|]. exact Hrows.
Defined.
